(** * Shallow embedding of the MUK-BIOMEDSSA backend (in-memory / Cloudinary server)

    The executable server is [src/unnamed/part_000]: module-level collections
    [users], [articles], [config], [understanding], [pushSubscriptions],
    a snapshot routine [saveDataToCloudinary] writing one JSON blob to the
    raw resource ["muk-data/database"], and [loadDataFromCloudinary] reading
    it back at startup.  [src/Muk-backend/index.js] repeats the same server
    (lines 868-1197) after a MongoDB variant and a JSON-file variant; the
    JSON-file variant's [POST /config] is embedded as well because it differs.

    Every Express handler runs its mutation in one synchronous segment before
    its first [await], so a run of the server is a sequence of handler steps
    over one shared store; this file models each handler as a function from
    the ambient environment (clock, network), the request and the world
    (in-memory store and remote blobs) to the new world and the response. *)

From Stdlib Require Import String Ascii List ZArith Bool Lia.
Import ListNotations.
Open Scope string_scope.
Open Scope Z_scope.
Set Warnings "-register-all".

(** ** JavaScript values *)

Module Js.

(** In-memory JavaScript values.  Objects are association lists of their own
    enumerable properties in insertion order; numbers are integers
    (ids and sizes are [Date.now()] values and byte counts). *)
Inductive val : Type :=
| VUndef
| VNull
| VBool (b : bool)
| VNum (n : Z)
| VStr (s : string)
| VArr (elems : list val)
| VObj (fields : list (string * val)).

(** JavaScript truthiness ([if (x)], [!x], [x || y]). *)
Definition truthy (v : val) : bool :=
  match v with
  | VUndef | VNull => false
  | VBool b => b
  | VNum n => negb (n =? 0)
  | VStr s => negb (String.eqb s "")
  | VArr _ | VObj _ => true
  end.

(** [a || b] *)
Definition js_or (a b : val) : val := if truthy a then a else b.

(** Own property of an object, [undefined] when absent. *)
Fixpoint obj_get (f : list (string * val)) (k : string) : val :=
  match f with
  | [] => VUndef
  | (k', v) :: r => if String.eqb k' k then v else obj_get r k
  end.

(** [o[k] = v] on a plain object: an existing property keeps its position,
    a new one is appended. *)
Fixpoint obj_set (f : list (string * val)) (k : string) (v : val)
  : list (string * val) :=
  match f with
  | [] => [(k, v)]
  | (k', v') :: r =>
      if String.eqb k' k then (k', v) :: r else (k', v') :: obj_set r k v
  end.

(** Copying the properties of [src] onto [dst] in order, as
    [{...dst, ...src}] does. *)
Definition obj_assign (dst src : list (string * val)) : list (string * val) :=
  fold_left (fun acc kv => obj_set acc (fst kv) (snd kv)) src dst.

(** The rest object of [const { k: _, ...rest } = o]. *)
Definition obj_omit (f : list (string * val)) (k : string)
  : list (string * val) :=
  filter (fun kv => negb (String.eqb (fst kv) k)) f.

(** [Object.keys] *)
Definition keys (f : list (string * val)) : list string := map fst f.

(** Decimal rendering of an integer, as [String(n)] prints it. *)
Fixpoint digits (fuel : nat) (n : Z) (acc : string) : string :=
  match fuel with
  | O => acc
  | S fuel' =>
      let acc' := String (ascii_of_nat (48 + Z.to_nat (n mod 10))) acc in
      if n <? 10 then acc' else digits fuel' (n / 10) acc'
  end.

Definition Z_to_dec (n : Z) : string :=
  if n <? 0 then "-" ++ digits 64 (- n) "" else digits 64 n "".

(** [ToNumber] of a route parameter, for the decimal integer form that
    [String(id)] produces ("-" followed by digits); any other text is
    treated as [NaN], which equals no number. *)
Fixpoint digits_value (s : string) (acc : Z) : option Z :=
  match s with
  | EmptyString => Some acc
  | String c r =>
      let d := Z.of_nat (nat_of_ascii c) - 48 in
      if (0 <=? d) && (d <=? 9) then digits_value r (10 * acc + d) else None
  end.

Definition to_number (s : string) : option Z :=
  match s with
  | EmptyString => None
  | String "-" EmptyString => None
  | String "-" r => option_map Z.opp (digits_value r 0)
  | _ => digits_value s 0
  end.

(** [x == p] where [p] is a route parameter (a string). *)
Definition loose_eq_param (x : val) (p : string) : bool :=
  match x with
  | VNum n => match to_number p with Some m => Z.eqb n m | None => false end
  | VStr s => String.eqb s p
  | VBool b => match to_number p with
               | Some m => Z.eqb (if b then 1 else 0) m
               | None => false end
  | VUndef | VNull => false
  | VObj _ => String.eqb p "[object Object]"
  | VArr _ => false
  end.

(** [x === y] where [y] was just parsed from the request body: primitives
    compare by value, and an object or array from the body is a fresh
    reference, identical to nothing stored. *)
Definition strict_eq_fresh (x y : val) : bool :=
  match x, y with
  | VUndef, VUndef | VNull, VNull => true
  | VBool a, VBool b => Bool.eqb a b
  | VNum a, VNum b => Z.eqb a b
  | VStr a, VStr b => String.eqb a b
  | _, _ => false
  end.

End Js.

(** ** JSON documents and the text layer *)

Module Json.
Import Js.

(** A JSON document, the tree that [JSON.stringify] prints and
    [JSON.parse] reads back. *)
Inductive json : Type :=
| JNull
| JBool (b : bool)
| JNum (n : Z)
| JStr (s : string)
| JArr (elems : list json)
| JObj (fields : list (string * json)).

(** [JSON.stringify] at the document level: [undefined] becomes [null]
    inside arrays and drops out of objects. *)
Fixpoint to_json (v : val) : json :=
  match v with
  | VUndef | VNull => JNull
  | VBool b => JBool b
  | VNum n => JNum n
  | VStr s => JStr s
  | VArr l => JArr (map to_json l)
  | VObj f =>
      JObj ((fix go (f : list (string * val)) : list (string * json) :=
               match f with
               | [] => []
               | (k, VUndef) :: r => go r
               | (k, x) :: r => (k, to_json x) :: go r
               end) f)
  end.

(** [JSON.parse] at the document level. *)
Fixpoint of_json (j : json) : val :=
  match j with
  | JNull => VNull
  | JBool b => VBool b
  | JNum n => VNum n
  | JStr s => VStr s
  | JArr l => VArr (map of_json l)
  | JObj f => VObj (map (fun kv => (fst kv, of_json (snd kv))) f)
  end.

(** A stored text blob: either JSON text (given by its document) or bytes
    that are not JSON ([JSON.parse] throws a [SyntaxError] on them). *)
Inductive payload : Type :=
| Doc (j : json)
| Garbage (bytes : string).

Definition parse (p : payload) : option val :=
  match p with
  | Doc j => Some (of_json j)
  | Garbage _ => None
  end.

End Json.

(** ** The exception monad of a handler body *)

Module Exc.

Inductive res (A : Type) : Type :=
| Ok (a : A)
| Throw (message : string).
Arguments Ok {A} a.
Arguments Throw {A} message.

Definition bind {A B} (m : res A) (k : A -> res B) : res B :=
  match m with
  | Ok a => k a
  | Throw e => Throw e
  end.

End Exc.

Notation "x <- m ;; k" := (Exc.bind m (fun x => k))
  (at level 61, m at next level, right associativity).

(** ** Property access and array methods *)

Module Ops.
Import Js Exc.

(** [v[k]]: reading a property of [null] or [undefined] throws a
    [TypeError]; arrays and strings answer [length] and their indices. *)
Definition get_prop (v : val) (k : string) : res val :=
  match v with
  | VUndef => Throw ("Cannot read properties of undefined (reading '" ++ k ++ "')")
  | VNull => Throw ("Cannot read properties of null (reading '" ++ k ++ "')")
  | VObj f => Ok (obj_get f k)
  | VArr l =>
      if String.eqb k "length" then Ok (VNum (Z.of_nat (List.length l)))
      else match to_number k with
           | Some i => if (0 <=? i) && String.eqb (Z_to_dec i) k
                       then Ok (nth (Z.to_nat i) l VUndef) else Ok VUndef
           | None => Ok VUndef
           end
  | VStr s =>
      if String.eqb k "length" then Ok (VNum (Z.of_nat (String.length s)))
      else match to_number k with
           | Some i =>
               if (0 <=? i) && String.eqb (Z_to_dec i) k
               then match String.get (Z.to_nat i) s with
                    | Some c => Ok (VStr (String c EmptyString))
                    | None => Ok VUndef
                    end
               else Ok VUndef
           | None => Ok VUndef
           end
  | VBool _ | VNum _ => Ok VUndef
  end.

(** The properties an array or string spreads into an object: its
    indices. *)
Fixpoint indexed (i : Z) (l : list val) : list (string * val) :=
  match l with
  | [] => []
  | x :: r => (Z_to_dec i, x) :: indexed (i + 1) r
  end.

Fixpoint string_chars (s : string) : list val :=
  match s with
  | EmptyString => []
  | String c r => VStr (String c EmptyString) :: string_chars r
  end.

(** [{...v}]: own enumerable properties; [null] and [undefined] spread
    nothing. *)
Definition spread_props (v : val) : list (string * val) :=
  match v with
  | VObj f => f
  | VArr l => indexed 0 l
  | VStr s => indexed 0 (string_chars s)
  | _ => []
  end.

(** [const { ...rest } = v]: like a spread, but destructuring [null] or
    [undefined] throws. *)
Definition rest_of (v : val) : res (list (string * val)) :=
  match v with
  | VUndef => Throw "Cannot destructure 'undefined' as it is undefined."
  | VNull => Throw "Cannot destructure 'null' as it is null."
  | _ => Ok (spread_props v)
  end.

(** The receiver of an array method ([find], [push], ...). *)
Definition as_array (v : val) (meth : string) : res (list val) :=
  match v with
  | VArr l => Ok l
  | VUndef => Throw ("Cannot read properties of undefined (reading '" ++ meth ++ "')")
  | VNull => Throw ("Cannot read properties of null (reading '" ++ meth ++ "')")
  | _ => Throw ("x." ++ meth ++ " is not a function")
  end.

(** [arr.find(p)] *)
Fixpoint find_m (p : val -> res bool) (l : list val) : res (option val) :=
  match l with
  | [] => Ok None
  | x :: r => b <- p x;; if b then Ok (Some x) else find_m p r
  end.

(** [arr.findIndex(p)], with [None] for [-1]. *)
Fixpoint find_index_m (p : val -> res bool) (l : list val) : res (option nat) :=
  match l with
  | [] => Ok None
  | x :: r =>
      b <- p x;;
      if b then Ok (Some O)
      else i <- find_index_m p r;; Ok (option_map S i)
  end.

(** [arr.map(f)] *)
Fixpoint map_m (f : val -> res val) (l : list val) : res (list val) :=
  match l with
  | [] => Ok []
  | x :: r => y <- f x;; ys <- map_m f r;; Ok (y :: ys)
  end.

(** [arr.splice(i, 1)] *)
Fixpoint remove_nth (i : nat) (l : list val) : list val :=
  match i, l with
  | _, [] => []
  | O, _ :: r => r
  | S i', x :: r => x :: remove_nth i' r
  end.

(** [arr[i] = v] for an index inside the array. *)
Fixpoint replace_nth (i : nat) (v : val) (l : list val) : list val :=
  match i, l with
  | _, [] => []
  | O, _ :: r => v :: r
  | S i', x :: r => x :: replace_nth i' v r
  end.

(** [o[k] = v] in sloppy mode: on an object the property is written,
    [null] and [undefined] throw, and on primitives the write is dropped.
    (The collections written this way are objects; an array would take an
    index or an extra named property, which this model does not track.) *)
Definition set_prop (o : val) (k : string) (v : val) : res val :=
  match o with
  | VObj f => Ok (VObj (obj_set f k v))
  | VUndef => Throw ("Cannot set properties of undefined (setting '" ++ k ++ "')")
  | VNull => Throw ("Cannot set properties of null (setting '" ++ k ++ "')")
  | _ => Ok o
  end.

(** [x < 6] for the [password.length] check, with [undefined] and other
    values whose [ToNumber] is not an integer giving [false]. *)
Definition lt6 (v : val) : bool :=
  match v with
  | VNum n => n <? 6
  | VStr s => match to_number s with Some n => n <? 6 | None => false end
  | VNull => true
  | VBool _ => true
  | _ => false
  end.

End Ops.

(** ** The store, the remote blob store and the snapshot routines *)

Module Server.
Import Js Json Exc Ops.

(** The module-level [let] bindings of the server. *)
Record store : Type := mkStore {
  users : val;
  articles : val;
  config : val;
  understanding : val;
  pushSubscriptions : val
}.

Definition default_config : val :=
  VObj [("app_title", VStr "MUK-BIOMEDSSA");
        ("app_subtitle", VStr "Research App");
        ("welcome_message", VStr "Stay Updated with the Latest Biomedical Research Discoveries");
        ("primary_color", VStr "#0D7377");
        ("secondary_color", VStr "#f8fafc");
        ("accent_color", VStr "#16a34a");
        ("text_color", VStr "#1e293b");
        ("about_description", VStr "To provide biomedical science students with accessible, curated research content");
        ("font_family", VStr "Plus Jakarta Sans");
        ("font_size", VNum 16);
        ("contact_email", VStr "biomedssa@muk.ac.zm");
        ("contact_location", VStr "Mukuba University, Kitwe");
        ("contact_website", VStr "")].

(** The store of a freshly started process, before the load. *)
Definition initial_store : store :=
  mkStore (VArr []) (VArr []) default_config (VObj []) (VArr []).

Definition set_users (s : store) (v : val) : store :=
  mkStore v (articles s) (config s) (understanding s) (pushSubscriptions s).
Definition set_articles (s : store) (v : val) : store :=
  mkStore (users s) v (config s) (understanding s) (pushSubscriptions s).
Definition set_config (s : store) (v : val) : store :=
  mkStore (users s) (articles s) v (understanding s) (pushSubscriptions s).
Definition set_understanding (s : store) (v : val) : store :=
  mkStore (users s) (articles s) (config s) v (pushSubscriptions s).
Definition set_pushSubscriptions (s : store) (v : val) : store :=
  mkStore (users s) (articles s) (config s) (understanding s) v.

(** Raw resources on Cloudinary, by public id. *)
Definition remote := list (string * payload).

Fixpoint remote_get (r : remote) (id : string) : option payload :=
  match r with
  | [] => None
  | (id', p) :: r' => if String.eqb id' id then Some p else remote_get r' id
  end.

(** An upload with [overwrite: true]: the resource is replaced. *)
Definition remote_put (r : remote) (id : string) (p : payload) : remote :=
  (id, p) :: filter (fun e => negb (String.eqb (fst e) id)) r.

(** The ambient environment of one step: the clock ([Date.now()] and
    [new Date().toISOString()]) and whether Cloudinary is reachable. *)
Record env : Type := mkEnv {
  now : Z;
  now_iso : string;
  net_up : bool
}.

Record world : Type := mkWorld {
  mem : store;
  cloud : remote
}.

Definition db_public_id : string := "muk-data/database".

(** The document [saveDataToCloudinary] uploads. *)
Definition snapshot (e : env) (s : store) : val :=
  VObj [("users", users s); ("articles", articles s); ("config", config s);
        ("understanding", understanding s); ("lastUpdated", VStr (now_iso e))].

(** [saveDataToCloudinary]: never throws; [false] when the upload fails. *)
Definition saveDataToCloudinary (e : env) (s : store) (r : remote)
  : remote * bool :=
  if net_up e
  then (remote_put r db_public_id (Doc (to_json (snapshot e s))), true)
  else (r, false).

(** The console line that ends [loadDataFromCloudinary]. *)
Inductive load_log : Type :=
| LogDataLoaded       (* "Data loaded: ..." *)
| LogStartingFresh.   (* "No existing data found, starting fresh" *)

(** [loadDataFromCloudinary]: [cloudinary.api.resource] rejects when the
    resource is missing or the network is down, [https.get] fails with the
    network, [JSON.parse] throws on non-JSON text, and [data.users] throws
    when [data] is [null]; every rejection lands in the [catch], keeping
    whatever has been assigned so far. *)
Definition loadDataFromCloudinary (e : env) (r : remote) (s : store)
  : store * load_log :=
  match remote_get r db_public_id with
  | None => (s, LogStartingFresh)
  | Some p =>
      if negb (net_up e) then (s, LogStartingFresh) else
      match parse p with
      | None => (s, LogStartingFresh)
      | Some data =>
          match get_prop data "users" with
          | Throw _ => (s, LogStartingFresh)
          | Ok u =>
              let s1 := set_users s (js_or u (VArr [])) in
              match get_prop data "articles" with
              | Throw _ => (s1, LogStartingFresh)
              | Ok a =>
                  let s2 := set_articles s1 (js_or a (VArr [])) in
                  match get_prop data "config" with
                  | Throw _ => (s2, LogStartingFresh)
                  | Ok c =>
                      let s3 := set_config s2 (js_or c (config s2)) in
                      match get_prop data "understanding" with
                      | Throw _ => (s3, LogStartingFresh)
                      | Ok d =>
                          (set_understanding s3 (js_or d (VObj [])), LogDataLoaded)
                      end
                  end
              end
          end
      end
  end.

(** Process start: [loadDataFromCloudinary().then(() => app.listen(...))].
    The load never rejects, so the server always starts listening. *)
Definition startup (e : env) (r : remote) : store * load_log * bool :=
  let (s, log) := loadDataFromCloudinary e r initial_store in (s, log, true).

End Server.

(** ** Request handlers of [src/unnamed/part_000] *)

Module Handlers.
Import Js Json Exc Ops Server.

(** What the client receives: [res.status(st).json(body)], or Express's
    default 500 page when a handler without [try]/[catch] throws. *)
Inductive response : Type :=
| Respond (status : Z) (body : json)
| Crash.

Definition reply (st : Z) (v : val) : response := Respond st (to_json v).

Definition error_reply (st : Z) (msg : string) : response :=
  reply st (VObj [("error", VStr msg)]).

(** The [catch] branch of the handlers that have one. *)
Definition server_error (msg : string) : response :=
  error_reply 500 ("Server error: " ++ msg).

(** A mutation followed by [await saveDataToCloudinary()]. *)
Definition commit (e : env) (s : store) (w : world) : world :=
  mkWorld s (fst (saveDataToCloudinary e s (cloud w))).

(** A file handed over by multer after its upload to Cloudinary. *)
Record upload : Type := mkUpload {
  originalname : string;
  file_url : val;
  file_path : string;
  size : Z
}.

(** *** Authentication and users *)

Definition new_user (e : env) (name email password : val) : list (string * val) :=
  [("id", VNum (now e)); ("name", name); ("email", email);
   ("password", password); ("createdAt", VStr (now_iso e))].

Definition session_of (e : env) : val := VStr ("session_" ++ Z_to_dec (now e)).

(** [POST /auth/register] *)
Definition register (e : env) (body : list (string * val)) (w : world)
  : world * response :=
  let name := obj_get body "name" in
  let email := obj_get body "email" in
  let password := obj_get body "password" in
  if negb (truthy name) || negb (truthy email) || negb (truthy password)
  then (w, error_reply 400 "Please fill in all fields") else
  match get_prop password "length" with
  | Throw m => (w, server_error m)
  | Ok len =>
  if lt6 len then (w, error_reply 400 "Password must be at least 6 characters") else
  match (l <- as_array (users (mem w)) "find";;
         found <- find_m (fun u => em <- get_prop u "email";; Ok (strict_eq_fresh em email)) l;;
         Ok (l, found)) with
  | Throw m => (w, server_error m)
  | Ok (_, Some _) => (w, error_reply 400 "Email already registered")
  | Ok (l, None) =>
      let nu := new_user e name email password in
      let w' := commit e (set_users (mem w) (VArr (l ++ [VObj nu]))) w in
      (w', reply 200 (VObj [("user", VObj (obj_omit nu "password"));
                            ("session", session_of e)]))
  end
  end.

(** [POST /auth/login] *)
Definition login (e : env) (body : list (string * val)) (w : world) : response :=
  let email := obj_get body "email" in
  let password := obj_get body "password" in
  if negb (truthy email) || negb (truthy password)
  then error_reply 400 "Please enter email and password" else
  match (l <- as_array (users (mem w)) "find";;
         find_m (fun u => em <- get_prop u "email";;
                          if strict_eq_fresh em email
                          then pw <- get_prop u "password";; Ok (strict_eq_fresh pw password)
                          else Ok false) l) with
  | Throw m => server_error m
  | Ok None => error_reply 401 "Invalid email or password"
  | Ok (Some u) =>
      match rest_of u with
      | Throw m => server_error m
      | Ok f => reply 200 (VObj [("user", VObj (obj_omit f "password"));
                                 ("session", session_of e)])
      end
  end.

(** [GET /users] *)
Definition get_users (w : world) : response :=
  match (l <- as_array (users (mem w)) "map";;
         map_m (fun u => f <- rest_of u;; Ok (VObj (obj_omit f "password"))) l) with
  | Throw m => server_error m
  | Ok safe => reply 200 (VArr safe)
  end.

(** *** Articles *)

Definition id_matches (p : string) (a : val) : res bool :=
  x <- get_prop a "id";; Ok (loose_eq_param x p).

(** [GET /articles/:id] (no [try]/[catch]). *)
Definition get_article (p : string) (w : world) : response :=
  match (l <- as_array (articles (mem w)) "find";; find_m (id_matches p) l) with
  | Throw _ => Crash
  | Ok None => error_reply 404 "Article not found"
  | Ok (Some a) => reply 200 a
  end.

Definition new_article (e : env) (body : list (string * val)) (file : option upload)
  : val :=
  VObj [("id", VNum (now e));
        ("title", obj_get body "title");
        ("category", obj_get body "category");
        ("description", obj_get body "description");
        ("authors", obj_get body "authors");
        ("institution", obj_get body "institution");
        ("publicationDate", obj_get body "publicationDate");
        ("pdfName", match file with Some f => VStr (originalname f) | None => VStr "" end);
        ("pdfUrl", match file with
                   | Some f => js_or (file_url f) (VStr (file_path f))
                   | None => VStr "" end);
        ("pdfFile", VBool (match file with Some _ => true | None => false end));
        ("createdAt", VStr (now_iso e))].

(** [POST /articles] *)
Definition post_article (e : env) (body : list (string * val)) (file : option upload)
  (w : world) : world * response :=
  if negb (truthy (obj_get body "title")) || negb (truthy (obj_get body "category"))
  then (w, error_reply 400 "Title and category are required") else
  match as_array (articles (mem w)) "push" with
  | Throw m => (w, server_error m)
  | Ok l =>
      let a := new_article e body file in
      (commit e (set_articles (mem w) (VArr (l ++ [a]))) w, reply 200 a)
  end.

(** The object literal of [PUT /articles/:id]. *)
Definition updated_article (old : val) (body : list (string * val))
  (file : option upload) : val :=
  VObj (obj_assign (spread_props old)
          ([("title", obj_get body "title");
            ("category", obj_get body "category");
            ("description", obj_get body "description");
            ("authors", obj_get body "authors");
            ("institution", obj_get body "institution");
            ("publicationDate", obj_get body "publicationDate")] ++
           match file with
           | Some f => [("pdfName", VStr (originalname f));
                        ("pdfUrl", js_or (file_url f) (VStr (file_path f)));
                        ("pdfFile", VBool true)]
           | None => []
           end)).

(** [PUT /articles/:id] *)
Definition put_article (e : env) (p : string) (body : list (string * val))
  (file : option upload) (w : world) : world * response :=
  match (l <- as_array (articles (mem w)) "findIndex";;
         i <- find_index_m (id_matches p) l;; Ok (l, i)) with
  | Throw m => (w, server_error m)
  | Ok (_, None) => (w, error_reply 404 "Article not found")
  | Ok (l, Some i) =>
      let a := updated_article (nth i l VUndef) body file in
      (commit e (set_articles (mem w) (VArr (replace_nth i a l))) w, reply 200 a)
  end.

(** [DELETE /articles/:id] *)
Definition delete_article (e : env) (p : string) (w : world) : world * response :=
  match (l <- as_array (articles (mem w)) "findIndex";;
         i <- find_index_m (id_matches p) l;; Ok (l, i)) with
  | Throw m => (w, server_error m)
  | Ok (_, None) => (w, error_reply 404 "Article not found")
  | Ok (l, Some i) =>
      (commit e (set_articles (mem w) (VArr (remove_nth i l))) w,
       reply 200 (VObj [("message", VStr "Article deleted successfully")]))
  end.

(** *** Config *)

(** [GET /config] *)
Definition get_config (w : world) : response := reply 200 (config (mem w)).

(** [POST /config]: [config = { ...config, ...req.body }]. *)
Definition post_config (e : env) (body : val) (w : world) : world * response :=
  let c := VObj (obj_assign (spread_props (config (mem w))) (spread_props body)) in
  (commit e (set_config (mem w) c) w, reply 200 c).

(** *** Understanding materials *)

Definition material_of (f : upload) : val :=
  VObj [("name", VStr (originalname f)); ("url", VStr (file_path f));
        ("size", VNum (size f))].

(** [POST /understanding/:articleId] *)
Definition post_understanding (e : env) (p : string) (body : list (string * val))
  (files : list upload) (w : world) : world * response :=
  let entry := VObj [("summary", js_or (obj_get body "summary") (VStr ""));
                     ("materials", VArr (map material_of files))] in
  match set_prop (understanding (mem w)) p entry with
  | Throw m => (w, server_error m)
  | Ok u =>
      let w' := commit e (set_understanding (mem w) u) w in
      match get_prop (understanding (mem w')) p with
      | Throw m => (w', server_error m)
      | Ok v => (w', reply 200 v)
      end
  end.

(** [GET /understanding/:articleId] (no [try]/[catch]). *)
Definition get_understanding (p : string) (w : world) : response :=
  match get_prop (understanding (mem w)) p with
  | Throw _ => Crash
  | Ok v => reply 200 (js_or v (VObj [("summary", VStr ""); ("materials", VArr [])]))
  end.

(** *** Push subscriptions *)

(** [POST /push/subscribe] *)
Definition subscribe (body : list (string * val)) (w : world) : world * response :=
  let endpoint := obj_get body "endpoint" in
  let ks := obj_get body "keys" in
  match (l <- as_array (pushSubscriptions (mem w)) "find";;
         found <- find_m (fun sub => ep <- get_prop sub "endpoint";;
                                     Ok (strict_eq_fresh ep endpoint)) l;;
         Ok (l, found)) with
  | Throw m => (w, server_error m)
  | Ok (l, found) =>
      let s := match found with
               | Some _ => mem w
               | None => set_pushSubscriptions (mem w)
                           (VArr (l ++ [VObj [("endpoint", endpoint); ("keys", ks)]]))
               end in
      (mkWorld s (cloud w), reply 200 (VObj [("message", VStr "Subscribed successfully")]))
  end.

End Handlers.

(** ** [POST /config] of the JSON-file variant ([src/Muk-backend/index.js]) *)

Module FileVariant.
Import Js Json Handlers.

(** [readJSON(CONFIG_FILE)]: a missing or unparsable file reads as [{}]. *)
Definition readJSON_config (file : option payload) : val :=
  match file with
  | Some p => match parse p with Some v => v | None => VObj [] end
  | None => VObj []
  end.

(** [GET /config] *)
Definition get_config (file : option payload) : response :=
  reply 200 (readJSON_config file).

(** [writeJSON(path, data)]: the file becomes [JSON.stringify(data)] when
    the disk write succeeds; on an error the file is left as it was (and
    [false] is returned). *)
Definition writeJSON (writable : bool) (data : val) (file : option payload)
  : option payload * bool :=
  if writable then (Some (Doc (to_json data)), true) else (file, false).

(** [POST /config]: [writeJSON(CONFIG_FILE, req.body)], answering the body
    whatever [writeJSON] returned. *)
Definition post_config (writable : bool) (body : val) (file : option payload)
  : option payload * response :=
  (fst (writeJSON writable body file), reply 200 body).

End FileVariant.

(** ** Handlers of [src/unnamed/part_000] outside the claims *)

Module MoreHandlers.
Import Js Json Exc Ops Server Handlers.

(** [arr.filter(p)] *)
Fixpoint filter_m (p : val -> res bool) (l : list val) : res (list val) :=
  match l with
  | [] => Ok []
  | x :: r => b <- p x;; ys <- filter_m p r;; Ok (if b then x :: ys else ys)
  end.

(** [DELETE /users/:id] *)
Definition delete_user (e : env) (p : string) (w : world) : world * response :=
  match (l <- as_array (users (mem w)) "findIndex";;
         i <- find_index_m (id_matches p) l;; Ok (l, i)) with
  | Throw m => (w, server_error m)
  | Ok (_, None) => (w, error_reply 404 "User not found")
  | Ok (l, Some i) =>
      (commit e (set_users (mem w) (VArr (remove_nth i l))) w,
       reply 200 (VObj [("message", VStr "User deleted successfully")]))
  end.

(** [POST /push/unsubscribe] *)
Definition unsubscribe (body : list (string * val)) (w : world) : world * response :=
  let endpoint := obj_get body "endpoint" in
  match (l <- as_array (pushSubscriptions (mem w)) "filter";;
         filter_m (fun sub => ep <- get_prop sub "endpoint";;
                              Ok (negb (strict_eq_fresh ep endpoint))) l) with
  | Throw m => (w, server_error m)
  | Ok l' => (mkWorld (set_pushSubscriptions (mem w) (VArr l')) (cloud w),
              reply 200 (VObj [("message", VStr "Unsubscribed successfully")]))
  end.

End MoreHandlers.

(** * Properties *)

Module Articles.
Import Js Json Exc Ops Server Handlers.

(** Whether an article answers to the route parameter [p], and whether its
    [id] can be read at all (it is not [null] or [undefined]). *)
Definition id_is (p : string) (a : val) : bool :=
  match id_matches p a with Ok true => true | _ => false end.

Definition id_readable (p : string) (a : val) : bool :=
  match id_matches p a with Ok _ => true | Throw _ => false end.

Lemma find_index_none_iff (P : val -> res bool) (l : list val) :
  find_m P l = Ok None <-> find_index_m P l = Ok None.
Proof.
  induction l as [|x r IH]; simpl; [tauto|].
  destruct (P x) as [[|]|m]; simpl; try (split; discriminate).
  rewrite IH. destruct (find_index_m P r) as [[i|]|m]; simpl; split; congruence.
Qed.

Lemma find_index_total (p : string) (l : list val) :
  forallb (id_readable p) l = true ->
  exists o, find_index_m (id_matches p) l = Ok o.
Proof.
  induction l as [|x r IH]; simpl; intros H; [eauto|].
  apply andb_prop in H as [Hx Hr]. unfold id_readable in Hx.
  destruct (id_matches p x) as [[|]|m]; simpl; try discriminate; [eauto|].
  destruct (IH Hr) as [o ->]. simpl. eauto.
Qed.

Lemma find_index_no_match (p : string) (l : list val) :
  forallb (id_readable p) l = true -> filter (id_is p) l = [] ->
  find_index_m (id_matches p) l = Ok None.
Proof.
  induction l as [|x r IH]; simpl; intros H Hf; [reflexivity|].
  apply andb_prop in H as [Hx Hr]. unfold id_readable, id_is in *.
  destruct (id_matches p x) as [[|]|m]; simpl; try discriminate.
  rewrite (IH Hr Hf). reflexivity.
Qed.

Lemma find_index_some_remove (p : string) (l : list val) (i : nat) :
  find_index_m (id_matches p) l = Ok (Some i) ->
  length (filter (id_is p) (remove_nth i l)) = pred (length (filter (id_is p) l)).
Proof.
  revert i; induction l as [|x r IH]; intros i H; simpl in H; [discriminate|].
  unfold id_is in *.
  destruct (id_matches p x) as [[|]|m] eqn:Ex; simpl in H; try discriminate.
  - injection H as <-. simpl. rewrite Ex. reflexivity.
  - destruct (find_index_m (id_matches p) r) as [[j|]|m] eqn:Er; simpl in H;
      try discriminate.
    injection H as <-. simpl. rewrite Ex. exact (IH j eq_refl).
Qed.

Lemma find_index_some_readable (p : string) (l : list val) (i : nat) :
  forallb (id_readable p) l = true ->
  find_index_m (id_matches p) l = Ok (Some i) ->
  forallb (id_readable p) (remove_nth i l) = true.
Proof.
  revert i; induction l as [|x r IH]; intros i Hr H; simpl in H; [discriminate|].
  simpl in Hr. apply andb_prop in Hr as [Hx Hr].
  destruct (id_matches p x) as [[|]|m] eqn:Ex; simpl in H; try discriminate.
  - injection H as <-. exact Hr.
  - destruct (find_index_m (id_matches p) r) as [[j|]|m] eqn:Er; simpl in H;
      try discriminate.
    injection H as <-. simpl. rewrite Hx. exact (IH j Hr eq_refl).
Qed.

Lemma find_m_app_skip (P : val -> res bool) (l r : list val) :
  Forall (fun a => P a = Ok false) l -> find_m P (l ++ r) = find_m P r.
Proof.
  induction 1 as [|x l Hx _ IH]; simpl; [reflexivity|]. rewrite Hx. exact IH.
Qed.

Lemma new_article_matches (e : env) (body : list (string * val))
  (file : option upload) (p : string) :
  to_number p = Some (now e) -> id_matches p (new_article e body file) = Ok true.
Proof.
  intros H. unfold id_matches, new_article. simpl. rewrite H, Z.eqb_refl. reflexivity.
Qed.

(** C5: an update naming an id that [GET /articles/:id] reports as absent
    answers 404 "Article not found" and changes nothing (so the number of
    articles is unchanged). *)
Theorem put_article_absent_unchanged (e : env) (p : string)
  (body : list (string * val)) (file : option upload) (w : world) :
  get_article p w = error_reply 404 "Article not found" ->
  put_article e p body file w = (w, error_reply 404 "Article not found").
Proof.
  unfold get_article, put_article. intros H.
  destruct (articles (mem w)) as [| | | | |l|f]; simpl in *; try discriminate H.
  destruct (find_m (id_matches p) l) as [[a|]|m] eqn:Hf; simpl in H;
    try discriminate H.
  apply find_index_none_iff in Hf. rewrite Hf. reflexivity.
Qed.

Lemma put_article_absent_unchanged_witness :
  let w := mkWorld (set_articles initial_store
                      (VArr [VObj [("id", VNum 1700); ("title", VStr "A")]])) [] in
  get_article "5" w = error_reply 404 "Article not found" /\
  put_article (mkEnv 1800 "t" true) "5" [("title", VStr "B")] None w
    = (w, error_reply 404 "Article not found").
Proof.
  intros w. split; [reflexivity|].
  apply put_article_absent_unchanged. reflexivity.
Defined.

(** C3 (amended): when at most one article answers to the id, after
    [DELETE /articles/:id] the lookup answers 404, and a second delete
    answers 404 "Article not found" without changing anything. *)
Theorem delete_unique_then_absent (e1 e2 : env) (p : string) (w : world)
  (l : list val) :
  articles (mem w) = VArr l ->
  forallb (id_readable p) l = true ->
  (length (filter (id_is p) l) <= 1)%nat ->
  let w1 := fst (delete_article e1 p w) in
  get_article p w1 = error_reply 404 "Article not found" /\
  delete_article e2 p w1 = (w1, error_reply 404 "Article not found").
Proof.
  intros Ha Hr Hle w1.
  assert (Hgone : forall w', articles (mem w') = VArr l ->
            forallb (id_readable p) l = true ->
            find_index_m (id_matches p) l = Ok None ->
            get_article p w' = error_reply 404 "Article not found" /\
            delete_article e2 p w' = (w', error_reply 404 "Article not found")).
  { intros w' Ha' _ Hn. unfold get_article, delete_article. rewrite Ha'. simpl.
    rewrite Hn. apply find_index_none_iff in Hn. rewrite Hn. simpl. split; reflexivity. }
  destruct (find_index_total p l Hr) as [[i|] Hi].
  - assert (Hw1 : articles (mem w1) = VArr (remove_nth i l)).
    { unfold w1, delete_article. rewrite Ha. simpl. rewrite Hi. reflexivity. }
    pose proof (find_index_some_readable p l i Hr Hi) as Hr'.
    pose proof (find_index_some_remove p l i Hi) as Hlen.
    assert (Hnil : filter (id_is p) (remove_nth i l) = []).
    { apply length_zero_iff_nil. lia. }
    clear Hgone. unfold get_article, delete_article. rewrite Hw1. simpl.
    rewrite (find_index_no_match p _ Hr' Hnil).
    pose proof (find_index_no_match p _ Hr' Hnil) as Hn.
    apply find_index_none_iff in Hn. rewrite Hn. split; reflexivity.
  - assert (Hw1 : w1 = w).
    { unfold w1, delete_article. rewrite Ha. simpl. rewrite Hi. reflexivity. }
    rewrite Hw1. exact (Hgone w Ha Hr Hi).
Qed.

Definition article_1700 (title : string) : val :=
  VObj [("id", VNum 1700); ("title", VStr title); ("category", VStr "C")].

Lemma delete_unique_then_absent_witness :
  let w := mkWorld (set_articles initial_store
                      (VArr [article_1700 "A"; VObj [("id", VNum 1800)]])) [] in
  let w1 := fst (delete_article (mkEnv 1900 "t" true) "1700" w) in
  get_article "1700" w1 = error_reply 404 "Article not found" /\
  delete_article (mkEnv 2000 "u" true) "1700" w1
    = (w1, error_reply 404 "Article not found").
Proof.
  apply (delete_unique_then_absent _ _ "1700" _
           [article_1700 "A"; VObj [("id", VNum 1800)]]);
    [reflexivity | reflexivity | simpl; lia].
Defined.

(** C3 as stated fails: two articles created in the same millisecond share
    the id; the delete removes the first, and the lookup finds the second. *)
Lemma delete_duplicate_id_still_found :
  let w := mkWorld (set_articles initial_store
                      (VArr [article_1700 "A"; article_1700 "B"])) [] in
  let w1 := fst (delete_article (mkEnv 1900 "t" true) "1700" w) in
  get_article "1700" w1 = reply 200 (article_1700 "B") /\
  get_article "1700" w1 <> error_reply 404 "Article not found".
Proof.
  split; [reflexivity|]. vm_compute. discriminate.
Qed.

(** C4 (amended): a [POST /articles] with a title and a category stores the
    record the handler builds (fresh [Date.now()] id, the six body fields,
    the pdf fields, [createdAt]); when no stored article answers to that id,
    [GET /articles/:id] returns exactly that record. *)
Theorem post_then_get_article (e : env) (p : string)
  (body : list (string * val)) (file : option upload) (w : world)
  (l : list val) :
  truthy (obj_get body "title") = true ->
  truthy (obj_get body "category") = true ->
  articles (mem w) = VArr l ->
  to_number p = Some (now e) ->
  Forall (fun a => id_matches p a = Ok false) l ->
  snd (post_article e body file w) = reply 200 (new_article e body file) /\
  articles (mem (fst (post_article e body file w)))
    = VArr (l ++ [new_article e body file]) /\
  get_article p (fst (post_article e body file w))
    = reply 200 (new_article e body file).
Proof.
  intros Ht Hc Ha Hp Hl.
  unfold post_article. rewrite Ht, Hc, Ha. simpl.
  split; [reflexivity|]. split; [reflexivity|].
  unfold get_article. cbn [mem articles set_articles commit Exc.bind as_array].
  rewrite (find_m_app_skip _ _ _ Hl). cbn [find_m].
  rewrite (new_article_matches e body file p Hp). reflexivity.
Qed.

Lemma post_then_get_article_witness :
  let e := mkEnv 1700 "2024-01-01T00:00:00.000Z" true in
  let body := [("title", VStr "A"); ("category", VStr "C")] in
  let w := mkWorld (set_articles initial_store (VArr [VObj [("id", VNum 5)]])) [] in
  get_article "1700" (fst (post_article e body None w))
    = reply 200 (new_article e body None).
Proof.
  intros e body w.
  apply (post_then_get_article e "1700" body None w [VObj [("id", VNum 5)]]);
    try reflexivity.
  repeat constructor.
Defined.

(** C4 as stated fails: when an article already carries the millisecond
    the new one is stamped with, the lookup returns the older record. *)
Lemma post_then_get_returns_older :
  let e := mkEnv 1700 "2024-01-01T00:00:00.000Z" true in
  let body := [("title", VStr "B"); ("category", VStr "C")] in
  let w := mkWorld (set_articles initial_store (VArr [article_1700 "A"])) [] in
  get_article "1700" (fst (post_article e body None w)) = reply 200 (article_1700 "A") /\
  get_article "1700" (fst (post_article e body None w)) <> reply 200 (new_article e body None).
Proof.
  split; [reflexivity|]. vm_compute. congruence.
Qed.

End Articles.

Module ObjectFacts.
Import Js.

Lemma obj_get_set_same (f : list (string * val)) (k : string) (v : val) :
  obj_get (obj_set f k v) k = v.
Proof.
  induction f as [|[k' v'] r IH]; cbn [obj_set obj_get].
  - rewrite String.eqb_refl. reflexivity.
  - destruct (String.eqb k' k) eqn:E; cbn [obj_get]; rewrite E; [reflexivity|exact IH].
Qed.

Lemma obj_get_set_other (f : list (string * val)) (k k' : string) (v : val) :
  k' <> k -> obj_get (obj_set f k' v) k = obj_get f k.
Proof.
  intros Hne. induction f as [|[k0 v0] r IH]; cbn [obj_set obj_get].
  - apply String.eqb_neq in Hne. rewrite Hne. reflexivity.
  - destruct (String.eqb k0 k') eqn:E; cbn [obj_get].
    + apply String.eqb_eq in E. subst k0.
      apply String.eqb_neq in Hne. rewrite Hne. reflexivity.
    + rewrite IH. reflexivity.
Qed.

Lemma obj_get_assign_other (src dst : list (string * val)) (k : string) :
  ~ In k (keys src) -> obj_get (obj_assign dst src) k = obj_get dst k.
Proof.
  unfold obj_assign, keys. revert dst.
  induction src as [|[k' v'] r IH]; intros dst Hk; simpl in *; [reflexivity|].
  rewrite IH by tauto. apply obj_get_set_other. intros ->. tauto.
Qed.

End ObjectFacts.

Module Collections.
Import Js Json Exc Ops Server Handlers ObjectFacts.

(** In the in-memory server, [POST /config] merges the body into the
    config ([{...config, ...req.body}]), so a key the body does not carry
    reads as before. *)
Theorem post_config_keeps_unsupplied_keys (e : env) (body : val) (w : world)
  (f : list (string * val)) (k : string) :
  config (mem w) = VObj f ->
  ~ In k (keys (spread_props body)) ->
  get_prop (config (mem (fst (post_config e body w)))) k = get_prop (config (mem w)) k.
Proof.
  intros Hc Hk. unfold post_config. rewrite Hc. simpl.
  rewrite obj_get_assign_other by exact Hk. reflexivity.
Qed.

Lemma post_config_keeps_unsupplied_keys_witness :
  let w := mkWorld initial_store [] in
  let body := VObj [("app_title", VStr "X")] in
  get_prop (config (mem (fst (post_config (mkEnv 1 "t" true) body w)))) "primary_color"
    = get_prop (config (mem w)) "primary_color".
Proof.
  apply (post_config_keeps_unsupplied_keys _ _ _
           (match default_config with VObj f => f | _ => [] end));
    [reflexivity | simpl; intuition discriminate].
Defined.

(** C2: the JSON-file variant's [POST /config] writes the body as the
    whole config file, unlike the merging handlers of the other servers:
    after posting only [app_title] over the default config, the stored
    config no longer has [primary_color]. *)
Lemma file_post_config_drops_unsupplied :
  let before := Some (Doc (to_json default_config)) in
  let after := fst (FileVariant.post_config true (VObj [("app_title", VStr "X")]) before) in
  get_prop (FileVariant.readJSON_config before) "primary_color" = Ok (VStr "#0D7377") /\
  get_prop (FileVariant.readJSON_config after) "primary_color" = Ok VUndef.
Proof. split; reflexivity. Qed.

Definition understanding_entry (body : list (string * val)) (files : list upload) : val :=
  VObj [("summary", js_or (obj_get body "summary") (VStr ""));
        ("materials", VArr (map material_of files))].

(** C8: [POST /understanding/:articleId] stores under the article id a
    new entry whose [materials] list is exactly the uploaded files,
    whatever was stored under that id before; the handler and later reads
    return it.  The statement is about what the id reads as, not about the
    position of the key in the object.  The id is not [__proto__], for
    which the assignment replaces the object's prototype instead of
    storing an own entry (article ids are numbers). *)
Theorem post_understanding_replaces (e : env) (p : string)
  (body : list (string * val)) (files : list upload) (w : world)
  (f : list (string * val)) :
  understanding (mem w) = VObj f -> p <> "__proto__" ->
  get_prop (understanding (mem (fst (post_understanding e p body files w)))) p
    = Ok (understanding_entry body files) /\
  snd (post_understanding e p body files w) = reply 200 (understanding_entry body files) /\
  get_understanding p (fst (post_understanding e p body files w))
    = reply 200 (understanding_entry body files).
Proof.
  intros Hu _. unfold post_understanding, get_understanding. rewrite Hu.
  cbn [set_prop commit mem understanding set_understanding get_prop fst snd].
  rewrite !obj_get_set_same. split; [reflexivity|]. split; reflexivity.
Qed.

Definition upload_named (n : string) : upload := mkUpload n VUndef ("https://cdn/" ++ n) 10.

Lemma post_understanding_replaces_witness :
  let w := mkWorld (set_understanding initial_store
             (VObj [("7", understanding_entry [] [upload_named "old.pdf"])])) [] in
  let w' := fst (post_understanding (mkEnv 1 "t" true) "7" [("summary", VStr "s")]
                   [upload_named "new.pdf"] w) in
  get_understanding "7" w'
    = reply 200 (understanding_entry [("summary", VStr "s")] [upload_named "new.pdf"]).
Proof.
  apply (post_understanding_replaces _ _ _ _ _
           [("7", understanding_entry [] [upload_named "old.pdf"])]);
    [reflexivity | discriminate].
Defined.

Lemma find_present_endpoint (l : list val) (ep : string) (sub : val) :
  Forall (fun x => exists f, x = VObj f) l ->
  In sub l -> get_prop sub "endpoint" = Ok (VStr ep) ->
  exists s, find_m (fun x => y <- get_prop x "endpoint";;
                             Ok (strict_eq_fresh y (VStr ep))) l = Ok (Some s).
Proof.
  induction 1 as [|x r [fx ->] _ IH]; intros Hin Hs; [destruct Hin|].
  simpl. destruct (strict_eq_fresh (obj_get fx "endpoint") (VStr ep)) eqn:E;
    simpl; [eauto|].
  destruct Hin as [<- | Hin]; [|exact (IH Hin Hs)].
  simpl in Hs. injection Hs as Hs. rewrite Hs in E. simpl in E.
  rewrite String.eqb_refl in E. discriminate.
Qed.

(** C10: subscribing with a (string) endpoint that a stored subscription
    already has leaves the store as it is and still answers
    "Subscribed successfully". *)
Theorem subscribe_present_unchanged (body : list (string * val)) (w : world)
  (l : list val) (ep : string) (sub : val) :
  pushSubscriptions (mem w) = VArr l ->
  obj_get body "endpoint" = VStr ep ->
  Forall (fun x => exists f, x = VObj f) l ->
  In sub l -> get_prop sub "endpoint" = Ok (VStr ep) ->
  subscribe body w = (w, reply 200 (VObj [("message", VStr "Subscribed successfully")])).
Proof.
  intros Hp He Hl Hin Hs.
  destruct (find_present_endpoint l ep sub Hl Hin Hs) as [s Hf].
  unfold subscribe. rewrite Hp, He. simpl. rewrite Hf. simpl.
  destruct w; reflexivity.
Qed.

Lemma subscribe_present_unchanged_witness :
  let sub := VObj [("endpoint", VStr "https://push/1"); ("keys", VObj [])] in
  let w := mkWorld (set_pushSubscriptions initial_store (VArr [sub])) [] in
  subscribe [("endpoint", VStr "https://push/1"); ("keys", VObj [])] w
    = (w, reply 200 (VObj [("message", VStr "Subscribed successfully")])).
Proof.
  intros sub w.
  apply (subscribe_present_unchanged _ _ [sub] "https://push/1" sub);
    [reflexivity | reflexivity | repeat econstructor | left; reflexivity | reflexivity].
Defined.

End Collections.

Module Serialization.
Import Js Json.

(** The members [JSON.stringify] writes for an object's properties. *)
Fixpoint fields_json (f : list (string * val)) : list (string * json) :=
  match f with
  | [] => []
  | (k, VUndef) :: r => fields_json r
  | (k, x) :: r => (k, to_json x) :: fields_json r
  end.

Lemma to_json_obj (f : list (string * val)) : to_json (VObj f) = JObj (fields_json f).
Proof. reflexivity. Qed.

Lemma fields_json_keys (f : list (string * val)) (k : string) :
  In k (map fst (fields_json f)) -> In k (map fst f).
Proof.
  induction f as [|[k' x] r IH]; simpl; [tauto|].
  destruct x; simpl; intuition.
Qed.

Definition json_get (f : list (string * json)) (k : string) : option json :=
  option_map snd (find (fun kv => String.eqb (fst kv) k) f).

End Serialization.

Module Auth.
Import Js Json Exc Ops Server Handlers Serialization.

(** A user as it appears in a response: an object without [password]. *)
Definition user_json_safe (j : json) : Prop :=
  match j with
  | JObj u => ~ In "password" (map fst u)
  | _ => False
  end.

(** A response of register or login: either a 200 whose [user] member is
    safe, or an [{ error }] object. *)
Definition auth_response_safe (r : response) : Prop :=
  (exists top u, r = Respond 200 (JObj top) /\ json_get top "user" = Some u /\
                 user_json_safe u) \/
  (exists st msg, r = Respond st (JObj [("error", JStr msg)])).

(** A response of [GET /users]. *)
Definition users_response_safe (r : response) : Prop :=
  (exists us, r = Respond 200 (JArr us) /\ Forall user_json_safe us) \/
  (exists st msg, r = Respond st (JObj [("error", JStr msg)])).

Lemma omit_no_password (f : list (string * val)) :
  ~ In "password" (map fst (obj_omit f "password")).
Proof.
  unfold obj_omit. induction f as [|[k x] r IH]; simpl; [tauto|].
  destruct (String.eqb k "password") eqn:E; simpl; [exact IH|].
  intros [-> | H]; [rewrite String.eqb_refl in E; discriminate | exact (IH H)].
Qed.

Lemma omit_password_safe (f : list (string * val)) :
  user_json_safe (to_json (VObj (obj_omit f "password"))).
Proof.
  rewrite to_json_obj. simpl. intros Hin. apply fields_json_keys in Hin.
  exact (omit_no_password f Hin).
Qed.

Lemma error_reply_safe (st : Z) (msg : string) : auth_response_safe (error_reply st msg).
Proof. right. exists st, msg. reflexivity. Qed.

Lemma user_reply_safe (f : list (string * val)) (sess : val) :
  auth_response_safe
    (reply 200 (VObj [("user", VObj (obj_omit f "password")); ("session", sess)])).
Proof.
  left. unfold reply. cbn [to_json].
  eexists _, (to_json (VObj (obj_omit f "password"))). split; [reflexivity|].
  split; [reflexivity|]. apply omit_password_safe.
Qed.

Ltac close_auth :=
  first [ apply error_reply_safe | apply user_reply_safe
        | unfold server_error; apply error_reply_safe ].

(** C9: register, login and the user list never put a [password] member in
    a user they return, although [register] stores the password as sent. *)
Theorem responses_hide_password :
  (forall e body w, auth_response_safe (snd (register e body w))) /\
  (forall e body w, auth_response_safe (login e body w)) /\
  (forall w, users_response_safe (get_users w)) /\
  (forall e body w l,
     users (mem w) = VArr l ->
     snd (register e body w) = reply 200
       (VObj [("user", VObj (obj_omit (new_user e (obj_get body "name")
                  (obj_get body "email") (obj_get body "password")) "password"));
              ("session", session_of e)]) ->
     users (mem (fst (register e body w))) =
       VArr (l ++ [VObj (new_user e (obj_get body "name") (obj_get body "email")
                          (obj_get body "password"))])).
Proof.
  split; [|split; [|split]].
  - intros e body w. unfold register.
    destruct (negb _ || negb _ || negb _); [close_auth|].
    destruct (get_prop _ "length") as [len|m]; [|close_auth].
    destruct (lt6 len); [close_auth|].
    destruct (users (mem w)) as [| | | | |l|f]; cbn [as_array Exc.bind snd];
      try close_auth.
    destruct (find_m _ l) as [[u|]|m]; cbn [Exc.bind snd]; close_auth.
  - intros e body w. unfold login.
    destruct (negb _ || negb _); [close_auth|].
    destruct (Exc.bind _ _) as [[u|]|m]; [|close_auth|close_auth].
    destruct (rest_of u); close_auth.
  - intros w. unfold get_users.
    destruct (Exc.bind _ _) as [safe|m] eqn:E; [|right; eexists _, _; reflexivity].
    left. eexists. split; [reflexivity|].
    destruct (users (mem w)) as [| | | | |l|f]; cbn [as_array Exc.bind] in E;
      try discriminate.
    revert safe E. induction l as [|u r IH]; intros safe E; simpl in E.
    + injection E as <-. constructor.
    + destruct (rest_of u) as [fu|m]; simpl in E; [|discriminate].
      destruct (map_m _ r) as [ys|m]; simpl in E; [|discriminate].
      injection E as <-. simpl. constructor; [apply omit_password_safe|].
      apply IH. reflexivity.
  - intros e body w l Hl. unfold register. rewrite Hl.
    destruct (negb _ || negb _ || negb _); [discriminate|].
    destruct (get_prop _ "length") as [len|m]; [|discriminate].
    destruct (lt6 len); [discriminate|].
    cbn [as_array Exc.bind].
    destruct (find_m _ l) as [[u|]|m]; cbn [Exc.bind snd fst]; try discriminate.
    intros _. reflexivity.
Qed.

Lemma responses_hide_password_witness :
  let w := mkWorld initial_store [] in
  let body := [("name", VStr "Ann"); ("email", VStr "a@b"); ("password", VStr "secret1")] in
  users (mem (fst (register (mkEnv 1700 "t" true) body w))) =
    VArr [VObj (new_user (mkEnv 1700 "t" true) (VStr "Ann") (VStr "a@b") (VStr "secret1"))].
Proof.
  intros w body.
  apply (proj2 (proj2 (proj2 responses_hide_password)) _ body w []);
    reflexivity.
Defined.

End Auth.

Module Startup.
Import Js Json Exc Ops Server.

(** C6: when the snapshot resource does not exist or holds text that is
    not JSON, the load assigns nothing (every collection keeps its
    initial value), ends with "No existing data found, starting fresh", and
    the server still starts listening. *)
Theorem load_failure_keeps_defaults (e : env) (r : remote) :
  remote_get r db_public_id = None \/
  (exists bytes, remote_get r db_public_id = Some (Garbage bytes)) ->
  (forall s, loadDataFromCloudinary e r s = (s, LogStartingFresh)) /\
  startup e r = (initial_store, LogStartingFresh, true).
Proof.
  intros H.
  assert (Hl : forall s, loadDataFromCloudinary e r s = (s, LogStartingFresh)).
  { intros s. unfold loadDataFromCloudinary.
    destruct H as [-> | [bytes ->]]; [reflexivity|].
    destruct (net_up e); reflexivity. }
  split; [exact Hl|]. unfold startup. rewrite Hl. reflexivity.
Qed.

Lemma load_failure_keeps_defaults_witness :
  startup (mkEnv 1 "t" true) [("muk-data/database", Garbage "<html>")]
    = (initial_store, LogStartingFresh, true).
Proof.
  apply (load_failure_keeps_defaults _ _). right. exists "<html>". reflexivity.
Defined.

End Startup.

Module Inserts.
Import Js Json Exc Ops Server Handlers.

Definition request := (env * list (string * val) * option upload)%type.

(** A run of [POST /articles] requests, one after the other. *)
Fixpoint post_articles (reqs : list request) (w : world) : world * list response :=
  match reqs with
  | [] => (w, [])
  | (e, body, file) :: rest =>
      let (w1, r1) := post_article e body file w in
      let (w2, rs) := post_articles rest w1 in
      (w2, r1 :: rs)
  end.

(** The requests that pass the title/category check. *)
Definition accepted (q : request) : bool :=
  let '(_, body, _) := q in
  truthy (obj_get body "title") && truthy (obj_get body "category").

Definition created (r : response) : bool :=
  match r with Respond st _ => Z.eqb st 200 | Crash => false end.

Definition article_of (q : request) : val :=
  let '(e, body, file) := q in new_article e body file.

Definition clock_of (q : request) : Z := let '(e, _, _) := q in now e.

Lemma new_article_id (q : request) : get_prop (article_of q) "id" = Ok (VNum (clock_of q)).
Proof. destruct q as [[e body] file]. reflexivity. Qed.

Definition reg_request := (env * list (string * val))%type.

(** A run of [POST /auth/register] requests, one after the other. *)
Fixpoint register_all (reqs : list reg_request) (w : world) : world * list response :=
  match reqs with
  | [] => (w, [])
  | (e, body) :: rest =>
      let (w1, r1) := register e body w in
      let (w2, rs) := register_all rest w1 in
      (w2, r1 :: rs)
  end.

(** The user record a registration request pushes. *)
Definition user_of (q : reg_request) : val :=
  let '(e, body) := q in
  VObj (new_user e (obj_get body "name") (obj_get body "email") (obj_get body "password")).

(** The requests whose answer was a 200. *)
Fixpoint succeeded {A : Type} (qs : list A) (rs : list response) : list A :=
  match qs, rs with
  | q :: qs', r :: rs' => if created r then q :: succeeded qs' rs' else succeeded qs' rs'
  | _, _ => []
  end.

(** One registration either answers 200 and appends its user, or answers
    something else and changes nothing. *)
Lemma register_step (e : env) (body : list (string * val)) (w : world) (l : list val) :
  users (mem w) = VArr l ->
  (created (snd (register e body w)) = true /\
   fst (register e body w) = commit e (set_users (mem w) (VArr (l ++ [user_of (e, body)])%list)) w) \/
  (created (snd (register e body w)) = false /\ fst (register e body w) = w).
Proof.
  intros Hl. unfold register. cbv zeta. rewrite Hl.
  destruct (negb _ || negb _ || negb _); [right; split; reflexivity|].
  destruct (get_prop _ "length") as [len|m]; [|right; split; reflexivity].
  destruct (lt6 len); [right; split; reflexivity|].
  cbn [as_array Exc.bind].
  destruct (find_m _ l) as [[u|]|m]; cbn [Exc.bind];
    [right; split; reflexivity | left; split; reflexivity | right; split; reflexivity].
Qed.

Lemma register_all_append (reqs : list reg_request) (w : world) (l : list val) :
  users (mem w) = VArr l ->
  users (mem (fst (register_all reqs w)))
    = VArr (l ++ map user_of (succeeded reqs (snd (register_all reqs w)))) /\
  length (snd (register_all reqs w)) = length reqs /\
  length (succeeded reqs (snd (register_all reqs w)))
    = length (filter created (snd (register_all reqs w))) /\
  map (fun u => get_prop u "id") (map user_of (succeeded reqs (snd (register_all reqs w))))
    = map (fun q => Ok (VNum (now (fst q)))) (succeeded reqs (snd (register_all reqs w))).
Proof.
  revert w l. induction reqs as [|[e body] rest IH]; intros w l Hl.
  - simpl. rewrite app_nil_r. auto.
  - cbn [register_all].
    pose proof (register_step e body w l Hl) as Hs.
    destruct (register e body w) as [w1 r1] eqn:Er. cbn [fst snd] in Hs.
    destruct Hs as [[Hc Hw] | [Hc Hw]].
    + assert (Hl1 : users (mem w1) = VArr (l ++ [user_of (e, body)])%list)
        by (rewrite Hw; reflexivity).
      destruct (IH w1 _ Hl1) as [H1 [H2 [H3 H4]]].
      destruct (register_all rest w1) as [w2 rs]. cbn [fst snd succeeded] in *.
      rewrite Hc. cbn [map filter length]. rewrite Hc. cbn [length].
      split; [rewrite H1, <- app_assoc; reflexivity|].
      split; [f_equal; exact H2|]. split; [f_equal; exact H3|].
      f_equal. exact H4.
    + subst w1. destruct (IH w l Hl) as [H1 [H2 [H3 H4]]].
      destruct (register_all rest w) as [w2 rs]. cbn [fst snd succeeded filter length] in *.
      rewrite Hc. split; [exact H1|]. split; [f_equal; exact H2|]. split; [exact H3|exact H4].
Qed.

Lemma post_articles_append (reqs : list request) (w : world) (l : list val) :
  articles (mem w) = VArr l ->
  articles (mem (fst (post_articles reqs w)))
    = VArr (l ++ map article_of (filter accepted reqs)) /\
  length (filter created (snd (post_articles reqs w)))
    = length (filter accepted reqs) /\
  map (fun a => get_prop a "id") (map article_of (filter accepted reqs))
    = map (fun q => Ok (VNum (clock_of q))) (filter accepted reqs).
Proof.
  revert w l. induction reqs as [|[[e body] file] rest IH]; intros w l Hl.
  - simpl. rewrite app_nil_r. auto.
  - cbn [post_articles filter].
    replace (accepted (e, body, file)) with
      (truthy (obj_get body "title") && truthy (obj_get body "category")) by reflexivity.
    destruct (truthy (obj_get body "title") && truthy (obj_get body "category")) eqn:Hacc.
    + apply andb_prop in Hacc as [Ht Hc].
      set (a := new_article e body file).
      set (w1 := commit e (set_articles (mem w) (VArr (l ++ [a])%list)) w).
      assert (Hp : post_article e body file w = (w1, reply 200 a)).
      { unfold post_article. rewrite Ht, Hc, Hl. reflexivity. }
      rewrite Hp.
      destruct (IH w1 (l ++ [a])%list eq_refl) as [H1 [H2 H3]].
      destruct (post_articles rest w1) as [w2 rs]. cbn [fst snd] in *.
      split; [rewrite H1, <- app_assoc; reflexivity|]. split.
      * cbn [filter]. replace (created (reply 200 a)) with true by reflexivity.
        cbn [length]. f_equal. exact H2.
      * cbn [map]. unfold a. rewrite (new_article_id (e, body, file)). f_equal. exact H3.
    + assert (Hp : post_article e body file w
                   = (w, error_reply 400 "Title and category are required")).
      { unfold post_article.
        destruct (truthy (obj_get body "title")), (truthy (obj_get body "category"));
          try discriminate; reflexivity. }
      rewrite Hp.
      destruct (IH w l Hl) as [H1 [H2 H3]].
      destruct (post_articles rest w) as [w2 rs]. cbn [fst snd filter] in *.
      split; [exact H1|]. split; [exact H2|exact H3].
Qed.

Definition body_titled (t : string) : list (string * val) :=
  [("title", VStr t); ("category", VStr "C")].

(** C7 (amended): after any run of [POST /articles] requests the articles
    are the old ones followed by one new record per accepted request, in
    order, and after any run of [POST /auth/register] requests the users
    are the old ones followed by one new user per request answered 200, in
    order; each collection grows by exactly the number of 200 answers, and
    the id of each new record is the [Date.now()] value of its request. *)
Theorem inserts_append :
  (forall (reqs : list request) (w : world) (l : list val),
     articles (mem w) = VArr l ->
     articles (mem (fst (post_articles reqs w)))
       = VArr (l ++ map article_of (filter accepted reqs)) /\
     length (filter created (snd (post_articles reqs w)))
       = length (filter accepted reqs) /\
     map (fun a => get_prop a "id") (map article_of (filter accepted reqs))
       = map (fun q => Ok (VNum (clock_of q))) (filter accepted reqs)) /\
  (forall (reqs : list reg_request) (w : world) (l : list val),
     users (mem w) = VArr l ->
     users (mem (fst (register_all reqs w)))
       = VArr (l ++ map user_of (succeeded reqs (snd (register_all reqs w)))) /\
     length (snd (register_all reqs w)) = length reqs /\
     length (succeeded reqs (snd (register_all reqs w)))
       = length (filter created (snd (register_all reqs w))) /\
     map (fun u => get_prop u "id") (map user_of (succeeded reqs (snd (register_all reqs w))))
       = map (fun q => Ok (VNum (now (fst q)))) (succeeded reqs (snd (register_all reqs w)))).
Proof. split; [exact post_articles_append | exact register_all_append]. Qed.

Definition signup (n : string) : list (string * val) :=
  [("name", VStr n); ("email", VStr (n ++ "@muk")); ("password", VStr "secret1")].

Lemma inserts_append_witness :
  let reqs := [(mkEnv 1700 "a" true, body_titled "A", None);
               (mkEnv 1701 "b" true, [("title", VStr "")], None);
               (mkEnv 1702 "c" true, body_titled "C", None)] in
  let regs := [(mkEnv 1700 "a" true, signup "ann");
               (mkEnv 1701 "b" true, signup "ann");
               (mkEnv 1702 "c" true, signup "bob")] in
  length (filter created (snd (post_articles reqs (mkWorld initial_store [])))) = 2%nat /\
  users (mem (fst (register_all regs (mkWorld initial_store []))))
    = VArr ([] ++ map user_of (succeeded regs (snd (register_all regs (mkWorld initial_store [])))))%list.
Proof.
  intros reqs regs. split.
  - destruct (proj1 inserts_append reqs (mkWorld initial_store []) [] eq_refl)
      as [_ [H _]].
    rewrite H. reflexivity.
  - exact (proj1 (proj2 inserts_append regs (mkWorld initial_store []) [] eq_refl)).
Defined.

(** C7 as stated fails: two inserts in the same millisecond both succeed
    and receive the same id, for articles and for users alike. *)
Lemma same_millisecond_same_id :
  let reqs := [(mkEnv 1700 "a" true, body_titled "A", None);
               (mkEnv 1700 "a" true, body_titled "B", None)] in
  let w' := fst (post_articles reqs (mkWorld initial_store [])) in
  let regs := [(mkEnv 1700 "a" true, signup "ann"); (mkEnv 1700 "a" true, signup "bob")] in
  let w'' := fst (register_all regs (mkWorld initial_store [])) in
  articles (mem w') = VArr [new_article (mkEnv 1700 "a" true) (body_titled "A") None;
                            new_article (mkEnv 1700 "a" true) (body_titled "B") None] /\
  get_prop (new_article (mkEnv 1700 "a" true) (body_titled "A") None) "id"
    = get_prop (new_article (mkEnv 1700 "a" true) (body_titled "B") None) "id" /\
  users (mem w'') = VArr [user_of (mkEnv 1700 "a" true, signup "ann");
                          user_of (mkEnv 1700 "a" true, signup "bob")] /\
  get_prop (user_of (mkEnv 1700 "a" true, signup "ann")) "id"
    = get_prop (user_of (mkEnv 1700 "a" true, signup "bob")) "id".
Proof. split; [|split; [|split]]; vm_compute; reflexivity. Qed.

End Inserts.

Module RoundTrip.
Import Js Json Exc Ops Server Serialization.

(** [JSON.parse(JSON.stringify(v))] on a value nested in a document:
    properties holding [undefined] disappear and [undefined] array
    elements become [null]. *)
Fixpoint normalize (v : val) : val :=
  match v with
  | VUndef => VNull
  | VArr l => VArr (map normalize l)
  | VObj f =>
      VObj ((fix go (f : list (string * val)) : list (string * val) :=
               match f with
               | [] => []
               | (k, VUndef) :: r => go r
               | (k, x) :: r => (k, normalize x) :: go r
               end) f)
  | x => x
  end.

(** Whether a value holds no [undefined] anywhere. *)
Fixpoint defined (v : val) : bool :=
  match v with
  | VUndef => false
  | VArr l => forallb defined l
  | VObj f => forallb (fun kv => defined (snd kv)) f
  | _ => true
  end.

(** Induction over values, with hypotheses for the nested lists. *)
Fixpoint val_ind' (P : val -> Prop)
  (HU : P VUndef) (HN : P VNull) (HB : forall b, P (VBool b))
  (HNum : forall n, P (VNum n)) (HS : forall s, P (VStr s))
  (HA : forall l, Forall P l -> P (VArr l))
  (HO : forall f, Forall (fun kv => P (snd kv)) f -> P (VObj f))
  (v : val) {struct v} : P v :=
  let rec := val_ind' P HU HN HB HNum HS HA HO in
  match v with
  | VUndef => HU
  | VNull => HN
  | VBool b => HB b
  | VNum n => HNum n
  | VStr s => HS s
  | VArr l =>
      HA l ((fix go (l : list val) : Forall P l :=
               match l with
               | [] => Forall_nil P
               | x :: r => Forall_cons x (rec x) (go r)
               end) l)
  | VObj f =>
      HO f ((fix go (f : list (string * val)) : Forall (fun kv => P (snd kv)) f :=
               match f with
               | [] => Forall_nil _
               | kv :: r => Forall_cons kv (rec (snd kv)) (go r)
               end) f)
  end.


(** Values without [undefined] come back unchanged. *)
Lemma normalize_defined (v : val) : defined v = true -> normalize v = v.
Proof.
  induction v as [| | | | |l IH|f IH] using val_ind'; simpl; intros H;
    try reflexivity; try discriminate.
  - f_equal. induction IH as [|x r Hx _ IHr]; simpl in *; [reflexivity|].
    apply andb_prop in H as [H1 H2]. rewrite Hx, IHr; auto.
  - f_equal. induction IH as [|[k x] r Hx _ IHr]; simpl in *; [reflexivity|].
    apply andb_prop in H as [H1 H2].
    destruct x; try discriminate; rewrite Hx, IHr by auto; reflexivity.
Qed.

Lemma remote_get_put_same (r : remote) (id : string) (p : payload) :
  remote_get (remote_put r id p) id = Some p.
Proof. unfold remote_put. simpl. rewrite String.eqb_refl. reflexivity. Qed.






End RoundTrip.

(** ** Further properties of the handlers *)

Module Extras.
Import Js Json Exc Ops Server Handlers MoreHandlers ObjectFacts.

(** *** Array helpers *)

Lemma find_m_none_forall (P : val -> res bool) (l : list val) :
  find_m P l = Ok None -> Forall (fun x => P x = Ok false) l.
Proof.
  induction l as [|x r IH]; simpl; intros H; [constructor|].
  destruct (P x) as [[|]|m] eqn:Ex; simpl in H; try discriminate.
  constructor; auto.
Qed.

Lemma find_index_forall_none (P : val -> res bool) (l : list val) :
  Forall (fun x => P x = Ok false) l -> find_index_m P l = Ok None.
Proof.
  induction 1 as [|x r Hx _ IH]; cbn [find_index_m]; [reflexivity|].
  rewrite Hx. cbn [Exc.bind]. rewrite IH. reflexivity.
Qed.

Lemma find_index_split (P : val -> res bool) (pre post : list val) (u : val) :
  Forall (fun x => P x = Ok false) pre -> P u = Ok true ->
  find_index_m P (pre ++ u :: post)%list = Ok (Some (length pre)).
Proof.
  intros Hpre Hu. induction Hpre as [|x r Hx _ IH]; cbn [find_index_m app length].
  - rewrite Hu. reflexivity.
  - rewrite Hx. cbn [Exc.bind]. rewrite IH. reflexivity.
Qed.

Lemma remove_nth_split (pre post : list val) (u : val) :
  remove_nth (length pre) (pre ++ u :: post)%list = (pre ++ post)%list.
Proof. induction pre as [|x r IH]; simpl; [reflexivity|]. rewrite IH. reflexivity. Qed.

Lemma replace_nth_split (pre post : list val) (u v : val) :
  replace_nth (length pre) v (pre ++ u :: post)%list = (pre ++ v :: post)%list.
Proof. induction pre as [|x r IH]; simpl; [reflexivity|]. rewrite IH. reflexivity. Qed.

Lemma filter_m_ok (P : val -> res bool) (f : val -> bool) (l : list val) :
  Forall (fun x => P x = Ok (f x)) l -> filter_m P l = Ok (filter f l).
Proof.
  induction 1 as [|x r Hx _ IH]; cbn [filter_m filter]; [reflexivity|].
  rewrite Hx. cbn [Exc.bind]. rewrite IH. reflexivity.
Qed.

Lemma obj_get_absent (f : list (string * val)) (k : string) :
  ~ In k (keys f) -> obj_get f k = VUndef.
Proof.
  unfold keys. induction f as [|[k' v'] r IH]; simpl; intros Hk; [reflexivity|].
  destruct (String.eqb k' k) eqn:E.
  - apply String.eqb_eq in E. subst. tauto.
  - apply IH. tauto.
Qed.

Lemma obj_get_assign_in (src dst : list (string * val)) (k : string) :
  NoDup (keys src) -> In k (keys src) ->
  obj_get (obj_assign dst src) k = obj_get src k.
Proof.
  revert dst. induction src as [|[k' v'] r IH]; intros dst Hnd Hk;
    [contradiction|].
  inversion Hnd as [|? ? Hnot Hnd']; subst.
  change (obj_assign dst ((k', v') :: r)) with (obj_assign (obj_set dst k' v') r).
  cbn [obj_get]. destruct (String.eqb k' k) eqn:E.
  - apply String.eqb_eq in E. subst k'.
    rewrite obj_get_assign_other by exact Hnot. apply obj_get_set_same.
  - destruct Hk as [Hk|Hk]; [cbn in Hk; subst; rewrite String.eqb_refl in E; discriminate|].
    apply IH; assumption.
Qed.

(** *** Registration and login *)

(** Whether [POST /auth/register] answered 200. *)
Definition registered (e : env) (body : list (string * val)) (w : world) : bool :=
  match snd (register e body w) with
  | Respond st _ => Z.eqb st 200
  | Crash => false
  end.

Lemma find_m_some (P : val -> res bool) (l : list val) (u : val) :
  find_m P l = Ok (Some u) -> In u l /\ P u = Ok true.
Proof.
  induction l as [|x r IH]; simpl; intros H; [discriminate|].
  destruct (P x) as [[|]|m] eqn:Ex; simpl in H; try discriminate.
  - injection H as <-. auto.
  - destruct (IH H). auto.
Qed.

(** The accounts that [POST /auth/register] checks a new email against
    are the ones [POST /auth/login] then skips. *)
Lemma login_skips_registered (l : list val) (email password : val) :
  find_m (fun u => em <- get_prop u "email";; Ok (strict_eq_fresh em email)) l = Ok None ->
  Forall (fun u => (em <- get_prop u "email";;
                    if strict_eq_fresh em email
                    then pw <- get_prop u "password";; Ok (strict_eq_fresh pw password)
                    else Ok false) = Ok false) l.
Proof.
  intros H. apply find_m_none_forall in H. eapply Forall_impl; [|exact H].
  intros x Hx. cbv beta in Hx |- *.
  destruct (get_prop x "email") as [y|m]; cbn [Exc.bind] in *; [|discriminate].
  injection Hx as Hx. rewrite Hx. reflexivity.
Qed.

Ltac reg_refuted H := cbn in H; discriminate H.

(** Registering and then logging in: when [POST /auth/register] accepts a
    body with a string email and password, a later [POST /auth/login] with
    the same body answers 200 with the new account, its password removed,
    and a session built from the login time. *)
Theorem register_then_login (e e' : env) (body : list (string * val)) (w : world)
  (em pw : string) :
  obj_get body "email" = VStr em -> obj_get body "password" = VStr pw ->
  registered e body w = true ->
  login e' body (fst (register e body w)) =
    reply 200 (VObj [("user", VObj (obj_omit (new_user e (obj_get body "name")
                        (VStr em) (VStr pw)) "password"));
                     ("session", session_of e')]).
Proof.
  intros Hem Hpw Hreg. unfold registered in Hreg. unfold register in *.
  cbv zeta in *. rewrite Hem, Hpw in *.
  destruct (negb (truthy (obj_get body "name")) || negb (truthy (VStr em))
            || negb (truthy (VStr pw))) eqn:Hv; [reg_refuted Hreg|].
  destruct (get_prop (VStr pw) "length") as [len|m]; [|reg_refuted Hreg].
  destruct (lt6 len); [reg_refuted Hreg|].
  destruct (users (mem w)) as [| | | | |l|f]; cbn [as_array Exc.bind] in *;
    try reg_refuted Hreg.
  destruct (find_m _ l) as [[u|]|m] eqn:Hf; cbn [Exc.bind] in *;
    try reg_refuted Hreg.
  cbn [fst]. unfold login, commit. cbv zeta. cbn [mem users set_users].
  rewrite Hem, Hpw.
  apply orb_false_iff in Hv as [Hv Hp]. apply orb_false_iff in Hv as [_ He].
  rewrite He, Hp. cbn [orb as_array Exc.bind].
  rewrite Articles.find_m_app_skip by exact (login_skips_registered _ _ _ Hf).
  cbn. rewrite !String.eqb_refl. reflexivity.
Qed.

Lemma register_then_login_witness :
  let e := mkEnv 1700 "t" true in
  let body := [("name", VStr "Ann"); ("email", VStr "a@b"); ("password", VStr "secret1")] in
  let w := mkWorld (set_users initial_store
             (VArr [VObj [("id", VNum 1); ("email", VStr "c@d"); ("password", VStr "xyz123")]])) [] in
  login (mkEnv 1800 "u" true) body (fst (register e body w)) =
    reply 200 (VObj [("user", VObj (obj_omit (new_user e (VStr "Ann")
                        (VStr "a@b") (VStr "secret1")) "password"));
                     ("session", session_of (mkEnv 1800 "u" true))]).
Proof.
  intros e body w.
  apply (register_then_login e (mkEnv 1800 "u" true) body w "a@b" "secret1");
    reflexivity.
Defined.

(** Registering the same body twice: when the first registration with a
    string email is accepted, the second answers 400 "Email already
    registered" and changes nothing. *)
Theorem register_twice_rejected (e e' : env) (body : list (string * val)) (w : world)
  (em : string) :
  obj_get body "email" = VStr em -> registered e body w = true ->
  register e' body (fst (register e body w)) =
    (fst (register e body w), error_reply 400 "Email already registered").
Proof.
  intros Hem Hreg. unfold registered in Hreg. unfold register in *.
  cbv zeta in *. rewrite Hem in *.
  destruct (negb (truthy (obj_get body "name")) || negb (truthy (VStr em))
            || negb (truthy (obj_get body "password"))) eqn:Hv; [reg_refuted Hreg|].
  destruct (get_prop (obj_get body "password") "length") as [len|m];
    [|reg_refuted Hreg].
  destruct (lt6 len); [reg_refuted Hreg|].
  destruct (users (mem w)) as [| | | | |l|f]; cbn [as_array Exc.bind] in *;
    try reg_refuted Hreg.
  destruct (find_m _ l) as [[u|]|m] eqn:Hf; cbn [Exc.bind] in *;
    try reg_refuted Hreg.
  cbn [fst]. unfold commit. cbn [mem users set_users as_array Exc.bind].
  rewrite Articles.find_m_app_skip by exact (find_m_none_forall _ _ Hf).
  cbn. rewrite String.eqb_refl. reflexivity.
Qed.

Lemma register_twice_rejected_witness :
  let e := mkEnv 1700 "t" true in
  let body := [("name", VStr "Ann"); ("email", VStr "a@b"); ("password", VStr "secret1")] in
  let w := mkWorld initial_store [] in
  register (mkEnv 1800 "u" true) body (fst (register e body w)) =
    (fst (register e body w), error_reply 400 "Email already registered").
Proof.
  intros e body w. apply (register_twice_rejected e _ body w "a@b"); reflexivity.
Defined.

(** The password length check: a non-empty string password of fewer than
    six characters, with a name and an email given, is rejected with 400
    "Password must be at least 6 characters" and nothing is stored. *)
Theorem register_short_password (e : env) (body : list (string * val)) (w : world)
  (pw : string) :
  truthy (obj_get body "name") = true -> truthy (obj_get body "email") = true ->
  obj_get body "password" = VStr pw -> pw <> "" -> (String.length pw < 6)%nat ->
  register e body w = (w, error_reply 400 "Password must be at least 6 characters").
Proof.
  intros Hn Hm Hp Hne Hlen. unfold register. cbv zeta. rewrite Hn, Hm, Hp.
  apply String.eqb_neq in Hne. cbn [truthy]. rewrite Hne. cbn [negb orb].
  replace (get_prop (VStr pw) "length") with (Ok (VNum (Z.of_nat (String.length pw))))
    by reflexivity.
  cbn [lt6]. replace (Z.of_nat (String.length pw) <? 6) with true
    by (symmetry; apply Z.ltb_lt; lia).
  reflexivity.
Qed.

Lemma register_short_password_witness :
  register (mkEnv 1 "t" true)
    [("name", VStr "Ann"); ("email", VStr "a@b"); ("password", VStr "abcde")]
    (mkWorld initial_store []) =
  (mkWorld initial_store [], error_reply 400 "Password must be at least 6 characters").
Proof.
  apply (register_short_password _ _ _ "abcde");
    [reflexivity | reflexivity | reflexivity | discriminate | simpl; lia].
Defined.

(** Login answers 200 only for a stored account whose email and password
    are both strictly equal to the submitted ones. *)
Theorem login_200_sound (e : env) (body : list (string * val)) (w : world)
  (l : list val) (j : json) :
  users (mem w) = VArr l -> login e body w = Respond 200 j ->
  exists u em pw, In u l /\
    get_prop u "email" = Ok em /\ strict_eq_fresh em (obj_get body "email") = true /\
    get_prop u "password" = Ok pw /\ strict_eq_fresh pw (obj_get body "password") = true.
Proof.
  intros Hl H. unfold login in H. cbv zeta in H. rewrite Hl in H.
  cbn [as_array Exc.bind] in H.
  destruct (negb _ || negb _); [discriminate H|].
  destruct (find_m _ l) as [[u|]|m] eqn:Hf; try discriminate H.
  destruct (find_m_some _ _ _ Hf) as [Hin Hu].
  destruct (get_prop u "email") as [em|m] eqn:He; cbn [Exc.bind] in Hu; [|discriminate].
  destruct (strict_eq_fresh em _) eqn:Hs; [|discriminate].
  destruct (get_prop u "password") as [pw|m] eqn:Hp; cbn [Exc.bind] in Hu; [|discriminate].
  injection Hu as Hu. exists u, em, pw. auto.
Qed.

Definition login_body (r : response) : json :=
  match r with Respond _ j => j | Crash => JNull end.

Lemma login_200_sound_witness :
  let l := [VObj [("id", VNum 1); ("email", VStr "a@b"); ("password", VStr "secret1")]] in
  let w := mkWorld (set_users initial_store (VArr l)) [] in
  let body := [("email", VStr "a@b"); ("password", VStr "secret1")] in
  exists u em pw, In u l /\
    get_prop u "email" = Ok em /\ strict_eq_fresh em (obj_get body "email") = true /\
    get_prop u "password" = Ok pw /\ strict_eq_fresh pw (obj_get body "password") = true.
Proof.
  intros l w body.
  apply (login_200_sound (mkEnv 1 "t" true) body w l
           (login_body (login (mkEnv 1 "t" true) body w))); reflexivity.
Defined.

(** *** Deleting users and articles *)

(** [DELETE /users/:id] with an id no stored user answers to: 404 "User
    not found", and nothing changes. *)
Theorem delete_user_absent (e : env) (p : string) (w : world) (l : list val) :
  users (mem w) = VArr l -> Forall (fun u => id_matches p u = Ok false) l ->
  delete_user e p w = (w, error_reply 404 "User not found").
Proof.
  intros Hl Hf. unfold delete_user. rewrite Hl. cbn [as_array Exc.bind].
  rewrite (find_index_forall_none _ _ Hf). reflexivity.
Qed.

Lemma delete_user_absent_witness :
  let w := mkWorld (set_users initial_store (VArr [VObj [("id", VNum 5)]])) [] in
  delete_user (mkEnv 1 "t" true) "7" w = (w, error_reply 404 "User not found").
Proof.
  intros w. apply (delete_user_absent _ _ w [VObj [("id", VNum 5)]]);
    [reflexivity | repeat constructor].
Defined.

(** [DELETE /users/:id] removes exactly the first user answering to the id
    (loosely, [u.id == id]), keeps the others in order, saves, and answers
    "User deleted successfully". *)
Theorem delete_user_first_match (e : env) (p : string) (w : world)
  (pre post : list val) (u : val) :
  users (mem w) = VArr (pre ++ u :: post)%list ->
  Forall (fun x => id_matches p x = Ok false) pre -> id_matches p u = Ok true ->
  delete_user e p w =
    (commit e (set_users (mem w) (VArr (pre ++ post)%list)) w,
     reply 200 (VObj [("message", VStr "User deleted successfully")])).
Proof.
  intros Hl Hpre Hu. unfold delete_user. rewrite Hl. cbn [as_array Exc.bind].
  rewrite (find_index_split _ _ _ _ Hpre Hu). cbn [Exc.bind].
  rewrite remove_nth_split. reflexivity.
Qed.

Lemma delete_user_first_match_witness :
  let w := mkWorld (set_users initial_store
             (VArr [VObj [("id", VNum 5)]; VObj [("id", VNum 7)]; VObj [("id", VNum 7)]])) [] in
  delete_user (mkEnv 1 "t" true) "7" w =
    (commit (mkEnv 1 "t" true)
       (set_users (mem w) (VArr [VObj [("id", VNum 5)]; VObj [("id", VNum 7)]])) w,
     reply 200 (VObj [("message", VStr "User deleted successfully")])).
Proof.
  intros w.
  apply (delete_user_first_match _ _ w [VObj [("id", VNum 5)]]
           [VObj [("id", VNum 7)]] (VObj [("id", VNum 7)]));
    [reflexivity | repeat constructor | reflexivity].
Defined.

(** [DELETE /articles/:id] removes exactly the first article answering to
    the id, keeps the others in order, saves, and answers "Article deleted
    successfully". *)
Theorem delete_article_first_match (e : env) (p : string) (w : world)
  (pre post : list val) (u : val) :
  articles (mem w) = VArr (pre ++ u :: post)%list ->
  Forall (fun x => id_matches p x = Ok false) pre -> id_matches p u = Ok true ->
  delete_article e p w =
    (commit e (set_articles (mem w) (VArr (pre ++ post)%list)) w,
     reply 200 (VObj [("message", VStr "Article deleted successfully")])).
Proof.
  intros Hl Hpre Hu. unfold delete_article. rewrite Hl. cbn [as_array Exc.bind].
  rewrite (find_index_split _ _ _ _ Hpre Hu). cbn [Exc.bind].
  rewrite remove_nth_split. reflexivity.
Qed.

Lemma delete_article_first_match_witness :
  let w := mkWorld (set_articles initial_store
             (VArr [VObj [("id", VNum 5)]; VObj [("id", VNum 7)]; VObj [("id", VNum 9)]])) [] in
  delete_article (mkEnv 1 "t" true) "7" w =
    (commit (mkEnv 1 "t" true)
       (set_articles (mem w) (VArr [VObj [("id", VNum 5)]; VObj [("id", VNum 9)]])) w,
     reply 200 (VObj [("message", VStr "Article deleted successfully")])).
Proof.
  intros w.
  apply (delete_article_first_match _ _ w [VObj [("id", VNum 5)]]
           [VObj [("id", VNum 9)]] (VObj [("id", VNum 7)]));
    [reflexivity | repeat constructor | reflexivity].
Defined.

(** *** Push subscriptions *)

Definition is_object (v : val) : bool :=
  match v with VObj _ => true | _ => false end.

(** The [endpoint] member of a stored subscription. *)
Definition sub_endpoint (s : val) : val :=
  match s with VObj f => obj_get f "endpoint" | _ => VUndef end.

Lemma find_m_objects (l : list val) (endpoint : val) :
  forallb is_object l = true ->
  find_m (fun sub => ep <- get_prop sub "endpoint";; Ok (strict_eq_fresh ep endpoint)) l =
  Ok (find (fun s => strict_eq_fresh (sub_endpoint s) endpoint) l).
Proof.
  induction l as [|x r IH]; intros H; [reflexivity|].
  cbn [forallb] in H. apply andb_prop in H as [Hx Hr].
  destruct x; try discriminate. cbn [find_m find get_prop Exc.bind sub_endpoint].
  destruct (strict_eq_fresh _ _); [reflexivity|]. exact (IH Hr).
Qed.

Lemma filter_m_objects (l : list val) (endpoint : val) :
  forallb is_object l = true ->
  filter_m (fun sub => ep <- get_prop sub "endpoint";;
                       Ok (negb (strict_eq_fresh ep endpoint))) l =
  Ok (filter (fun s => negb (strict_eq_fresh (sub_endpoint s) endpoint)) l).
Proof.
  intros H. apply filter_m_ok. apply Forall_forall. intros x Hx.
  rewrite forallb_forall in H. specialize (H x Hx).
  destruct x; try discriminate. reflexivity.
Qed.

(** [POST /push/unsubscribe] keeps exactly the stored subscriptions whose
    endpoint is not strictly equal to the submitted one, in order; nothing
    is saved to Cloudinary. *)
Theorem unsubscribe_filters (body : list (string * val)) (w : world) (l : list val) :
  pushSubscriptions (mem w) = VArr l -> forallb is_object l = true ->
  unsubscribe body w =
    (mkWorld (set_pushSubscriptions (mem w)
       (VArr (filter (fun s => negb (strict_eq_fresh (sub_endpoint s)
                                                     (obj_get body "endpoint"))) l)))
       (cloud w),
     reply 200 (VObj [("message", VStr "Unsubscribed successfully")])).
Proof.
  intros Hl Ho. unfold unsubscribe. cbv zeta. rewrite Hl. cbn [as_array Exc.bind].
  rewrite (filter_m_objects _ _ Ho). reflexivity.
Qed.

Lemma unsubscribe_filters_witness :
  let l := [VObj [("endpoint", VStr "a")]; VObj [("endpoint", VStr "b")]] in
  let w := mkWorld (set_pushSubscriptions initial_store (VArr l)) [] in
  unsubscribe [("endpoint", VStr "a")] w =
    (mkWorld (set_pushSubscriptions (mem w) (VArr [VObj [("endpoint", VStr "b")]])) [],
     reply 200 (VObj [("message", VStr "Unsubscribed successfully")])).
Proof.
  intros l w. rewrite (unsubscribe_filters [("endpoint", VStr "a")] w l) by reflexivity.
  reflexivity.
Defined.

(** Subscribing and then unsubscribing a string endpoint leaves the server
    exactly as unsubscribing alone would: the subscription is gone whether
    or not it was stored before. *)
Theorem subscribe_then_unsubscribe (b1 b2 : list (string * val)) (w : world)
  (l : list val) (ep : string) :
  pushSubscriptions (mem w) = VArr l -> forallb is_object l = true ->
  obj_get b1 "endpoint" = VStr ep -> obj_get b2 "endpoint" = VStr ep ->
  unsubscribe b2 (fst (subscribe b1 w)) = unsubscribe b2 w.
Proof.
  intros Hl Ho H1 H2. destruct w as [[u a c d ps] r]. cbn in Hl. subst ps.
  unfold subscribe. cbv zeta. rewrite H1. cbn [mem pushSubscriptions as_array Exc.bind].
  rewrite (find_m_objects _ _ Ho). cbn [Exc.bind].
  destruct (find _ l); [reflexivity|]. cbn [fst].
  unfold unsubscribe. cbv zeta. rewrite H2.
  cbn [mem pushSubscriptions set_pushSubscriptions as_array Exc.bind].
  assert (Ho' : forallb is_object (l ++ [VObj [("endpoint", VStr ep); ("keys", obj_get b1 "keys")]])%list = true).
  { rewrite forallb_app, Ho. reflexivity. }
  rewrite (filter_m_objects _ _ Ho'), (filter_m_objects _ _ Ho).
  rewrite filter_app. cbn [filter sub_endpoint].
  replace (strict_eq_fresh (obj_get [("endpoint", VStr ep); ("keys", obj_get b1 "keys")]
             "endpoint") (VStr ep)) with true
    by (simpl; rewrite String.eqb_refl; reflexivity).
  cbn [negb]. rewrite app_nil_r. reflexivity.
Qed.

Lemma subscribe_then_unsubscribe_witness :
  let w := mkWorld (set_pushSubscriptions initial_store
             (VArr [VObj [("endpoint", VStr "b")]])) [] in
  unsubscribe [("endpoint", VStr "a")]
    (fst (subscribe [("endpoint", VStr "a"); ("keys", VObj [])] w)) =
  unsubscribe [("endpoint", VStr "a")] w.
Proof.
  intros w. apply (subscribe_then_unsubscribe _ _ w [VObj [("endpoint", VStr "b")]] "a");
    reflexivity.
Defined.

(** Neither push route touches Cloudinary or any collection other than
    [pushSubscriptions]: subscriptions live in memory only. *)
Theorem push_routes_memory_only (body : list (string * val)) (w : world) :
  cloud (fst (subscribe body w)) = cloud w /\
  mem (fst (subscribe body w)) =
    set_pushSubscriptions (mem w) (pushSubscriptions (mem (fst (subscribe body w)))) /\
  cloud (fst (unsubscribe body w)) = cloud w /\
  mem (fst (unsubscribe body w)) =
    set_pushSubscriptions (mem w) (pushSubscriptions (mem (fst (unsubscribe body w)))).
Proof.
  destruct w as [[u a c d ps] r]. unfold subscribe, unsubscribe. cbv zeta.
  cbn [mem cloud pushSubscriptions].
  split; [|split; [|split]];
    repeat match goal with
           | |- context [match ?x with _ => _ end] => destruct x
           end; reflexivity.
Qed.

(** *** Updating articles *)

(** The properties [PUT /articles/:id] writes. *)
Definition edited_keys (file : option upload) : list string :=
  ["title"; "category"; "description"; "authors"; "institution"; "publicationDate"] ++
  match file with Some _ => ["pdfName"; "pdfUrl"; "pdfFile"] | None => [] end.

Ltac pick_in := repeat (first [left; reflexivity | right]).

(** [PUT /articles/:id] replaces the first article answering to the id in
    place; the six text fields take the body's values (a field missing
    from the body becomes [undefined]), and every other property of the old
    article, its [id] and [createdAt] among them and, without a file, its
    PDF fields, is kept. *)
Theorem put_article_update (e : env) (p : string) (body : list (string * val))
  (file : option upload) (w : world) (pre post : list val) (fo : list (string * val)) :
  articles (mem w) = VArr (pre ++ VObj fo :: post)%list ->
  Forall (fun x => id_matches p x = Ok false) pre -> id_matches p (VObj fo) = Ok true ->
  put_article e p body file w =
    (commit e (set_articles (mem w)
       (VArr (pre ++ updated_article (VObj fo) body file :: post)%list)) w,
     reply 200 (updated_article (VObj fo) body file)) /\
  (forall k, In k ["title"; "category"; "description"; "authors"; "institution";
                   "publicationDate"] ->
     get_prop (updated_article (VObj fo) body file) k = Ok (obj_get body k)) /\
  (forall k, ~ In k (edited_keys file) ->
     get_prop (updated_article (VObj fo) body file) k = Ok (obj_get fo k)).
Proof.
  intros Hl Hpre Hu. split; [|split].
  - unfold put_article. rewrite Hl. cbn [as_array Exc.bind].
    rewrite (find_index_split _ _ _ _ Hpre Hu). cbn [Exc.bind].
    rewrite nth_middle, replace_nth_split. reflexivity.
  - intros k Hk. unfold updated_article. cbn [get_prop spread_props]. f_equal.
    cbn in Hk.
    repeat destruct Hk as [<-|Hk]; try contradiction;
      (rewrite obj_get_assign_in;
       [ destruct file; reflexivity
       | destruct file; repeat constructor; cbn; intuition discriminate
       | destruct file; cbn; pick_in ]).
  - intros k Hk. unfold updated_article. cbn [get_prop spread_props]. f_equal.
    apply obj_get_assign_other. destruct file; exact Hk.
Qed.

Definition article_7 : list (string * val) :=
  [("id", VNum 7); ("title", VStr "Old"); ("createdAt", VStr "t0")].

Lemma put_article_update_witness :
  let w := mkWorld (set_articles initial_store (VArr [VObj article_7])) [] in
  let body := [("title", VStr "New")] in
  put_article (mkEnv 1 "t" true) "7" body None w =
    (commit (mkEnv 1 "t" true) (set_articles (mem w)
       (VArr [updated_article (VObj article_7) body None])) w,
     reply 200 (updated_article (VObj article_7) body None)) /\
  (forall k, In k ["title"; "category"; "description"; "authors"; "institution";
                   "publicationDate"] ->
     get_prop (updated_article (VObj article_7) body None) k = Ok (obj_get body k)) /\
  (forall k, ~ In k (edited_keys None) ->
     get_prop (updated_article (VObj article_7) body None) k = Ok (obj_get article_7 k)).
Proof.
  intros w body.
  apply (put_article_update _ "7" body None w [] [] article_7);
    [reflexivity | constructor | reflexivity].
Defined.

(** *** Config and understanding materials *)

(** [POST /config] stores, for every key of a JSON body, the body's value
    (JSON objects never repeat a key), and answers with the new config. *)
Theorem post_config_supplied_keys (e : env) (fb : list (string * val)) (w : world)
  (k : string) :
  NoDup (keys fb) -> In k (keys fb) ->
  get_prop (config (mem (fst (post_config e (VObj fb) w)))) k = Ok (obj_get fb k) /\
  snd (post_config e (VObj fb) w) = reply 200 (config (mem (fst (post_config e (VObj fb) w)))).
Proof.
  intros Hnd Hk. unfold post_config.
  cbn [fst snd commit mem config set_config get_prop spread_props].
  split; [|reflexivity]. f_equal. apply obj_get_assign_in; assumption.
Qed.

Lemma post_config_supplied_keys_witness :
  get_prop (config (mem (fst (post_config (mkEnv 1 "t" true)
      (VObj [("app_title", VStr "X"); ("font_size", VNum 18)]) (mkWorld initial_store [])))))
    "font_size" = Ok (VNum 18) /\
  snd (post_config (mkEnv 1 "t" true)
      (VObj [("app_title", VStr "X"); ("font_size", VNum 18)]) (mkWorld initial_store [])) =
  reply 200 (config (mem (fst (post_config (mkEnv 1 "t" true)
      (VObj [("app_title", VStr "X"); ("font_size", VNum 18)]) (mkWorld initial_store []))))).
Proof.
  apply (post_config_supplied_keys _ [("app_title", VStr "X"); ("font_size", VNum 18)] _
           "font_size").
  - repeat constructor; cbn; intuition discriminate.
  - cbn. pick_in.
Defined.

(** Posting materials for one article leaves what [GET
    /understanding/:articleId] answers for every other article unchanged
    (the posted id is not [__proto__], which would replace the object's
    prototype). *)
Theorem post_understanding_other_ids (e : env) (p q : string)
  (body : list (string * val)) (files : list upload) (w : world)
  (f : list (string * val)) :
  understanding (mem w) = VObj f -> p <> "__proto__" -> q <> p ->
  get_understanding q (fst (post_understanding e p body files w)) = get_understanding q w.
Proof.
  intros Hf _ Hq. unfold post_understanding, get_understanding. rewrite Hf.
  cbn [set_prop]. cbn [commit mem understanding set_understanding get_prop fst].
  rewrite obj_get_set_other by congruence. reflexivity.
Qed.

Lemma post_understanding_other_ids_witness :
  let w := mkWorld (set_understanding initial_store
             (VObj [("2", VObj [("summary", VStr "s"); ("materials", VArr [])])])) [] in
  get_understanding "2" (fst (post_understanding (mkEnv 1 "t" true) "1"
                                [("summary", VStr "new")] [] w)) =
  get_understanding "2" w.
Proof.
  intros w.
  apply (post_understanding_other_ids _ "1" "2" _ _ w
           [("2", VObj [("summary", VStr "s"); ("materials", VArr [])])]);
    [reflexivity | discriminate | discriminate].
Defined.

(** [GET /understanding/:articleId] for a numeric id with no stored entry
    answers 200 with the empty default [{summary: '', materials: []}] rather
    than an error. *)
Theorem get_understanding_missing (p : string) (w : world) (f : list (string * val)) :
  understanding (mem w) = VObj f -> ~ In p (keys f) -> to_number p <> None ->
  get_understanding p w = reply 200 (VObj [("summary", VStr ""); ("materials", VArr [])]).
Proof.
  intros Hf Hp _. unfold get_understanding. rewrite Hf. cbn [get_prop].
  rewrite (obj_get_absent _ _ Hp). reflexivity.
Qed.

Lemma get_understanding_missing_witness :
  get_understanding "42" (mkWorld initial_store []) =
    reply 200 (VObj [("summary", VStr ""); ("materials", VArr [])]).
Proof.
  apply (get_understanding_missing _ _ []); [reflexivity | simpl; tauto | discriminate].
Defined.

(** *** Loading the snapshot *)

(** A snapshot that parses to an object whose [users], [articles],
    [config] and [understanding] members are missing or falsy loads as
    "Data loaded" with empty users, articles and understanding, whatever
    was in memory, while the running config is kept ([data.config ||
    config]). *)
Theorem load_falsy_members (e : env) (r : remote) (s : store) (pl : payload)
  (f : list (string * val)) :
  net_up e = true -> remote_get r db_public_id = Some pl -> parse pl = Some (VObj f) ->
  forallb (fun k => negb (truthy (obj_get f k)))
    ["users"; "articles"; "config"; "understanding"] = true ->
  loadDataFromCloudinary e r s =
    (mkStore (VArr []) (VArr []) (config s) (VObj []) (pushSubscriptions s), LogDataLoaded).
Proof.
  intros Hup Hr Hp Hk. unfold loadDataFromCloudinary. rewrite Hr, Hup, Hp.
  cbn [negb forallb] in *. cbn [get_prop].
  repeat match type of Hk with
         | _ && _ = true => apply andb_prop in Hk as [?Hx Hk]
         end.
  apply negb_true_iff in Hx, Hx0, Hx1, Hx2.
  unfold js_or. rewrite Hx, Hx0, Hx1, Hx2. reflexivity.
Qed.

Lemma load_falsy_members_witness :
  let s0 := set_users initial_store (VArr [VNum 1]) in
  loadDataFromCloudinary (mkEnv 1 "t" true)
    [("muk-data/database", Doc (JObj [("users", JNull); ("lastUpdated", JStr "t")]))] s0 =
  (mkStore (VArr []) (VArr []) (config s0) (VObj []) (pushSubscriptions s0), LogDataLoaded).
Proof.
  intros s0. apply (load_falsy_members _ _ _ (Doc (JObj [("users", JNull); ("lastUpdated", JStr "t")]))
           [("users", VNull); ("lastUpdated", VStr "t")]); reflexivity.
Defined.

(** A snapshot holding the JSON text [null] makes [data.users] throw:
    nothing is assigned and the load reports "starting fresh". *)
Theorem load_null_snapshot (e : env) (r : remote) (s : store) :
  remote_get r db_public_id = Some (Doc JNull) ->
  loadDataFromCloudinary e r s = (s, LogStartingFresh).
Proof.
  intros Hr. unfold loadDataFromCloudinary. rewrite Hr.
  destruct (net_up e); reflexivity.
Qed.

Lemma load_null_snapshot_witness :
  loadDataFromCloudinary (mkEnv 1 "t" true) [("muk-data/database", Doc JNull)]
    initial_store = (initial_store, LogStartingFresh).
Proof. apply load_null_snapshot. reflexivity. Defined.

(** *** Saving *)

(** A failed save is not fatal: with Cloudinary unreachable, a valid
    [POST /articles] still stores the article in memory and answers 200
    with it, and the remote snapshot is left as it was. *)
Theorem post_article_offline (e : env) (body : list (string * val))
  (file : option upload) (w : world) (l : list val) :
  net_up e = false -> truthy (obj_get body "title") = true ->
  truthy (obj_get body "category") = true -> articles (mem w) = VArr l ->
  post_article e body file w =
    (mkWorld (set_articles (mem w) (VArr (l ++ [new_article e body file])%list)) (cloud w),
     reply 200 (new_article e body file)).
Proof.
  intros Hoff Ht Hc Hl. unfold post_article. rewrite Ht, Hc, Hl.
  cbn [negb orb as_array]. unfold commit, saveDataToCloudinary. rewrite Hoff.
  reflexivity.
Qed.

Lemma post_article_offline_witness :
  post_article (mkEnv 1 "t" false) [("title", VStr "T"); ("category", VStr "C")] None
    (mkWorld initial_store [("muk-data/database", Doc JNull)]) =
  (mkWorld (set_articles initial_store
      (VArr [new_article (mkEnv 1 "t" false) [("title", VStr "T"); ("category", VStr "C")] None]))
      [("muk-data/database", Doc JNull)],
   reply 200 (new_article (mkEnv 1 "t" false) [("title", VStr "T"); ("category", VStr "C")] None)).
Proof.
  apply (post_article_offline (mkEnv 1 "t" false) [("title", VStr "T"); ("category", VStr "C")]
           None (mkWorld initial_store [("muk-data/database", Doc JNull)]) []);
    reflexivity.
Defined.

(** After a handler step, either nothing changed or the remote snapshot is
    the one of the new in-memory store. *)
Definition persisted (e : env) (w w' : world) : Prop :=
  w' = w \/ remote_get (cloud w') db_public_id = Some (Doc (to_json (snapshot e (mem w')))).

Lemma commit_persisted (e : env) (s : store) (w : world) :
  net_up e = true -> persisted e w (commit e s w).
Proof.
  intros Hup. right. unfold commit, saveDataToCloudinary. rewrite Hup.
  cbn [fst cloud mem]. apply RoundTrip.remote_get_put_same.
Qed.

(** Write-through: with Cloudinary reachable, every route that changes
    users, articles, config or understanding leaves on Cloudinary the
    snapshot of the store it answers from, or changes nothing. *)
Theorem mutations_write_through (e : env) :
  net_up e = true ->
  (forall body w, persisted e w (fst (register e body w))) /\
  (forall p w, persisted e w (fst (delete_user e p w))) /\
  (forall body file w, persisted e w (fst (post_article e body file w))) /\
  (forall p body file w, persisted e w (fst (put_article e p body file w))) /\
  (forall p w, persisted e w (fst (delete_article e p w))) /\
  (forall body w, persisted e w (fst (post_config e body w))) /\
  (forall p body files w, persisted e w (fst (post_understanding e p body files w))).
Proof.
  intros Hup.
  split; [|split; [|split; [|split; [|split; [|split]]]]]; intros;
    unfold register, delete_user, post_article, put_article, delete_article,
      post_config, post_understanding; cbv zeta;
    repeat match goal with
           | |- context [match ?x with _ => _ end] => destruct x
           end; cbn [fst];
    first [left; reflexivity | apply commit_persisted; exact Hup].
Qed.

Lemma mutations_write_through_witness :
  persisted (mkEnv 1 "t" true) (mkWorld initial_store [])
    (fst (post_config (mkEnv 1 "t" true) (VObj [("app_title", VStr "X")])
            (mkWorld initial_store []))).
Proof.
  exact (proj1 (proj2 (proj2 (proj2 (proj2 (proj2
           (mutations_write_through (mkEnv 1 "t" true) eq_refl))))))
           (VObj [("app_title", VStr "X")]) (mkWorld initial_store [])).
Defined.

(** *** Listing users *)

(** [GET /users] lists every stored account, in order, each without its
    [password]. *)
Theorem get_users_lists_all (w : world) (fs : list (list (string * val))) :
  users (mem w) = VArr (map VObj fs) ->
  get_users w = reply 200 (VArr (map (fun f => VObj (obj_omit f "password")) fs)).
Proof.
  intros Hl. unfold get_users. rewrite Hl. cbn [as_array Exc.bind].
  assert (H : forall gs,
    map_m (fun u => f <- rest_of u;; Ok (VObj (obj_omit f "password"))) (map VObj gs) =
    Ok (map (fun f => VObj (obj_omit f "password")) gs)).
  { induction gs as [|g gs IH]; [reflexivity|].
    cbn [map map_m rest_of spread_props Exc.bind]. rewrite IH. reflexivity. }
  rewrite H. reflexivity.
Qed.

Lemma get_users_lists_all_witness :
  get_users (mkWorld (set_users initial_store
    (VArr [VObj [("id", VNum 1); ("password", VStr "secret1")]])) []) =
  reply 200 (VArr [VObj [("id", VNum 1)]]).
Proof.
  apply (get_users_lists_all _ [[("id", VNum 1); ("password", VStr "secret1")]]).
  reflexivity.
Defined.

(** *** The JSON-file variant's config route *)


End Extras.
